(** * speed-cloudflare-cli: the measurement engine of [lib.js]

    A shallow embedding of [lib.js] and the properties its specification
    states about it.

    - JavaScript numbers are IEEE-754 binary64 values: Rocq's primitive
      floats, with the operators of the source written out in source order.
    - The network is an oracle: the [n]-th timed transaction issued through
      [request] is answered by [net w n].
    - Module-level variables ([flushing], [results]) and the console live in
      an explicit [State] threaded through a monad whose computations return,
      end with an uncaught exception, or stay suspended on a promise that is
      never settled.
    - [stats.js] and [chalk.js] are not part of the sources at hand; the
      statistics functions are an interface ([Stats]) with an instance
      modelled from the specification, and console styling is abstracted to
      structured console lines. *)

From Stdlib Require Import ZArith List String Ascii Bool Lia.
From Stdlib Require Import FloatClass PrimFloat FloatOps SpecFloat FloatAxioms.
From Stdlib Require Import DecimalString DecimalN DecimalPos.
From stdpp Require Import gmap strings.

Local Open Scope string_scope.
Local Open Scope list_scope.
#[local] Set Warnings "-inexact-float".

(** ** JavaScript built-ins used by [lib.js] *)

Module JS.

(** *** Strings *)

(** [s.slice(n)] for a non-negative [n]: the text from index [n] on. *)
Fixpoint slice (n : nat) (s : string) : string :=
  match n, s with
  | O, _ => s
  | S k, String _ r => slice k r
  | S _, EmptyString => EmptyString
  end.

(** [s.split(sep)] for a one-character separator: never empty. *)
Fixpoint split (sep : ascii) (s : string) : list string :=
  match s with
  | EmptyString => [EmptyString]
  | String c r =>
      if Ascii.eqb c sep then EmptyString :: split sep r
      else match split sep r with
           | h :: t => String c h :: t
           | [] => [String c EmptyString]
           end
  end.

(** [" ".repeat(k)]: a [RangeError] for negative [k]. *)
Fixpoint spaces (k : nat) : string :=
  match k with O => EmptyString | S j => String " " (spaces j) end.

Definition repeat_space (k : Z) : option string :=
  if (k <? 0)%Z then None else Some (spaces (Z.to_nat k)).

(** Template-literal conversion of a value that may be [undefined]. *)
Definition show (v : option string) : string :=
  match v with Some s => s | None => "undefined" end.

Definition N_to_string (n : N) : string := NilZero.string_of_uint (N.to_uint n).

(** *** Plain objects used as maps

    [data[k] = v] on an object created by the literal [{}]: an own property
    is created or overwritten, except for the key [__proto__], which reaches
    the inherited accessor of [Object.prototype]; its setter ignores values
    that are neither objects nor null, so no property is created. *)
Definition obj_set (data : gmap string string) (k v : string) : gmap string string :=
  if String.eqb k "__proto__" then data else <[k:=v]> data.

(** The names every object inherits from [Object.prototype]. *)
Definition Object_prototype_names : list string :=
  ["constructor"; "__defineGetter__"; "__defineSetter__"; "hasOwnProperty";
   "__lookupGetter__"; "__lookupSetter__"; "isPrototypeOf";
   "propertyIsEnumerable"; "toString"; "valueOf"; "__proto__";
   "toLocaleString"].

Definition inherited (k : string) : bool :=
  existsb (String.eqb k) Object_prototype_names.

(** What a template literal prints for the value inherited under the name
    [k]: [__proto__] is [Object.prototype] itself, [constructor] is the
    function [Object], every other name is a built-in function of that name;
    the text of a built-in function is the one Node gives it. *)
Definition inherited_text (k : string) : string :=
  if String.eqb k "__proto__" then "[object Object]"
  else if String.eqb k "constructor" then "function Object() { [native code] }"
  else "function " ++ k ++ "() { [native code] }".

(** [`${data[k]}`]: an entry of the object's own is printed as it is; without
    one the lookup goes on to [Object.prototype], and ends with [undefined]
    when the name is not inherited either. *)
Definition get_text (data : gmap string string) (k : string) : string :=
  match data !! k with
  | Some v => v
  | None => if inherited k then inherited_text k else "undefined"
  end.

(** *** Numbers *)

Definition is_neg_zero (x : float) : bool :=
  match classify x with NZero => true | _ => false end.

Definition is_pos_zero (x : float) : bool :=
  match classify x with PZero => true | _ => false end.

(** [Math.min(...xs)] and [Math.max(...xs)]: the fold of ECMAScript 21.3.2,
    starting from [+Infinity] (resp. [-Infinity]); any [NaN] wins. *)
Definition min_step (lowest x : float) : float :=
  if is_nan lowest || is_nan x then nan
  else if is_neg_zero x && is_pos_zero lowest then x
  else if (x <? lowest)%float then x else lowest.

Definition max_step (highest x : float) : float :=
  if is_nan highest || is_nan x then nan
  else if is_pos_zero x && is_neg_zero highest then x
  else if (highest <? x)%float then x else highest.

Definition Math_min (xs : list float) : float := fold_left min_step xs infinity.
Definition Math_max (xs : list float) : float := fold_left max_step xs neg_infinity.

(** The integer [Math.floor(x)] of a finite [x] (0 otherwise). *)
Definition floorZ (x : float) : Z :=
  match Prim2SF x with
  | S754_finite s m e =>
      let d := (2 ^ (- e))%Z in
      if (0 <=? e)%Z then (if s then - (Z.pos m * 2 ^ e) else Z.pos m * 2 ^ e)%Z
      else if s then (- ((Z.pos m + d - 1) / d))%Z else (Z.pos m / d)%Z
  | _ => 0%Z
  end.

(** The number nearest to the integer [z] (round to nearest, ties to even). *)
Definition of_Z (z : Z) : float := SF2Prim (binary_normalize prec emax z 0 false).

Definition of_N (n : N) : float := of_Z (Z.of_N n).

(** *** [parseFloat] *)

Definition is_digit (c : ascii) : bool :=
  let n := nat_of_ascii c in (48 <=? n)%nat && (n <=? 57)%nat.

(** The [StrWhiteSpaceChar]s among the code units 0 to 255 (a header value
    is a latin1 string): TAB, LF, VT, FF, CR, SP and the no-break space
    U+00A0. *)
Definition is_ws (c : ascii) : bool :=
  let n := nat_of_ascii c in
  (n =? 9)%nat || (n =? 10)%nat || (n =? 11)%nat || (n =? 12)%nat
  || (n =? 13)%nat || (n =? 32)%nat || (n =? 160)%nat.

Fixpoint trim_start (s : string) : string :=
  match s with
  | String c r => if is_ws c then trim_start r else s
  | EmptyString => EmptyString
  end.

(** The longest prefix of decimal digits, and the rest. *)
Fixpoint span_digits (s : string) : string * string :=
  match s with
  | String c r =>
      if is_digit c then let (d, t) := span_digits r in (String c d, t)
      else (EmptyString, s)
  | EmptyString => (EmptyString, EmptyString)
  end.

Fixpoint digits_value (s : string) (acc : N) : N :=
  match s with
  | String c r => digits_value r (acc * 10 + N.of_nat (nat_of_ascii c - 48))%N
  | EmptyString => acc
  end.

Inductive literal :=
  | LitInfinity (neg : bool)
  | LitDecimal (neg : bool) (int_digits frac_digits : string) (exponent : Z).

Definition sign_prefix (s : string) : bool * string :=
  match s with
  | String "-" r => (true, r)
  | String "+" r => (false, r)
  | _ => (false, s)
  end.

(** An [ExponentPart] at the head of [s], or 0 when there is none. *)
Definition exponent_part (s : string) : Z :=
  match s with
  | String c r =>
      if Ascii.eqb c "e" || Ascii.eqb c "E" then
        let (neg, r') := sign_prefix r in
        let (ds, _) := span_digits r' in
        if String.eqb ds EmptyString then 0%Z
        else if neg then (- Z.of_N (digits_value ds 0))%Z
        else Z.of_N (digits_value ds 0)
      else 0%Z
  | EmptyString => 0%Z
  end.

(** The longest prefix of [s] that is a [StrDecimalLiteral]. *)
Definition decimal_prefix (s : string) : option literal :=
  let (neg, r) := sign_prefix s in
  if String.prefix "Infinity" r then Some (LitInfinity neg)
  else
    let (ip, r1) := span_digits r in
    match r1 with
    | String "." r2 =>
        let (fp, r3) := span_digits r2 in
        if String.eqb ip EmptyString && String.eqb fp EmptyString then None
        else Some (LitDecimal neg ip fp (exponent_part r3))
    | _ =>
        if String.eqb ip EmptyString then None
        else Some (LitDecimal neg ip EmptyString (exponent_part r1))
    end.

(** The number for [m * 10^e], correctly rounded. *)
Definition of_decimal (neg : bool) (m : N) (e : Z) : float :=
  match m with
  | N0 => if neg then neg_zero else zero
  | Npos p =>
      let num := Z.to_pos (Z.pos p * 10 ^ Z.max e 0) in
      let den := Z.to_pos (10 ^ Z.max (- e) 0) in
      SF2Prim (SFdiv prec emax (S754_finite neg num 0) (S754_finite false den 0))
  end.

Definition literal_value (l : literal) : float :=
  match l with
  | LitInfinity neg => if neg then neg_infinity else infinity
  | LitDecimal neg ip fp e =>
      of_decimal neg (digits_value (ip ++ fp) 0)
                 (e - Z.of_nat (String.length fp))
  end.

Definition parseFloat (s : string) : float :=
  match decimal_prefix (trim_start s) with
  | Some l => literal_value l
  | None => nan
  end.

(** *** [Number.prototype.toFixed(2)] (ECMAScript 21.1.3.3) *)

Definition digit_char (d : N) : ascii := ascii_of_nat (48 + N.to_nat d).

(** For a finite [x >= 0]: the integer [n] with [n / 100 - x] nearest to
    zero, the larger one on a tie. *)
Definition hundredths (x : float) : N :=
  match Prim2SF x with
  | S754_finite _ m e =>
      if (0 <=? e)%Z then Z.to_N (100 * Z.pos m * 2 ^ e)
      else let d := (2 ^ (- e))%Z in Z.to_N ((200 * Z.pos m + d) / (2 * d))
  | _ => 0%N
  end.

(** [n / 100] written with exactly two decimals. *)
Definition two_decimals (n : N) : string :=
  N_to_string (n / 100)
  ++ String "." (String (digit_char ((n mod 100) / 10))
                        (String (digit_char (n mod 10)) EmptyString)).

(** The exact integer value of a finite [x >= 2^53]. *)
Definition integer_value (x : float) : Z :=
  match Prim2SF x with
  | S754_finite _ m e => (Z.pos m * 2 ^ e)%Z
  | _ => 0%Z
  end.

(** [Number::toString] picks the fewest digits [k] and the integer [s] of
    [k] digits for which [s * 10^(n0 - k)] still reads back as [x]; of two
    such [s] the one nearest to [x], the even one on a tie.  The result is
    the integer [s * 10^(n0 - k)] so chosen. *)
Fixpoint shortest_decimal (x : float) (X : Z) (n0 : Z) (k : Z) (fuel : nat) : Z :=
  match fuel with
  | O => X
  | S f =>
      let p := (10 ^ (n0 - k))%Z in
      let lo := (X / p)%Z in
      let hi := (lo + 1)%Z in
      let r := (X - lo * p)%Z in
      let ok s := Leibniz.eqb (of_Z (s * p)) x in
      match ok lo, ok hi with
      | true, true =>
          if (2 * r <? p)%Z then (lo * p)%Z
          else if (p <? 2 * r)%Z then (hi * p)%Z
          else if Z.even lo then (lo * p)%Z else (hi * p)%Z
      | true, false => (lo * p)%Z
      | false, true => (hi * p)%Z
      | false, false => shortest_decimal x X n0 (k + 1) f
      end
  end.

Fixpoint strip_zeros (fuel : nat) (s : Z) : Z :=
  match fuel with
  | O => s
  | S f => if (s mod 10 =? 0)%Z then strip_zeros f (s / 10) else s
  end.

(** [Number::toString(x)] for a finite [x >= 10^21]: exponential notation. *)
Definition toString_large (x : float) : string :=
  let X := integer_value x in
  let n0 := Z.of_nat (String.length (N_to_string (Z.to_N X))) in
  let V := shortest_decimal x X n0 1 17 in
  let n := String.length (N_to_string (Z.to_N V)) in
  let ds := N_to_string (Z.to_N (strip_zeros n V)) in
  let mantissa :=
    match ds with
    | String d EmptyString => ds
    | String d rest => String d (String "." rest)
    | EmptyString => ds
    end in
  mantissa ++ "e+" ++ N_to_string (N.of_nat (n - 1)).

Definition toFixed2 (x : float) : string :=
  if is_nan x then "NaN"
  else if is_infinity x then
    if (x <? 0)%float then "-Infinity" else "Infinity"
  else
    let s := if (x <? 0)%float then "-" else "" in
    let a := abs x in
    if (1e21 <=? a)%float then s ++ toString_large a
    else s ++ two_decimals (hundredths a).

End JS.

Import JS.

(** ** The Statistics Module

    [lib.js] calls [stats.average], [stats.median], [stats.jitter] and
    [stats.quartile]; [stats.js] itself is not among the sources.  The four
    functions are an interface here: pure functions from a series to a
    number that leave the series as it is (the specification: "pure
    functions over numeric sequences", "does not mutate the input
    series"). *)
Class StatsModule := {
  average : list float -> float;
  median : list float -> float;
  jitter : list float -> float;
  quartile : list float -> float -> float
}.

Module stats.

(** Modelled from the spec: [stats.js] is missing. Insertion into an
    ascending series, for "sorts a copy". *)
Fixpoint insert_sorted (x : float) (l : list float) : list float :=
  match l with
  | [] => [x]
  | y :: t => if (x <=? y)%float then x :: l else y :: insert_sorted x t
  end.

(** Modelled from the spec: [stats.js] is missing. "sorts a copy of the
    series": ascending, the series itself untouched. *)
Definition sorted_copy (series : list float) : list float :=
  fold_right insert_sorted [] series.

(** Modelled from the spec: [stats.js] is missing. An element of the sorted
    copy used in arithmetic; where there is none JavaScript reads
    [undefined], which arithmetic turns into [NaN]. *)
Definition elem (s : list float) (i : Z) : float :=
  if (i <? 0)%Z then nan else nth (Z.to_nat i) s nan.

(** Modelled from the spec: [stats.js] is missing. "arithmetic mean": the
    sum over the length.  On an empty series, where the specification says
    the function "fails (or is undefined)", this quotient is 0/0. *)
Definition average (series : list float) : float :=
  (fold_left PrimFloat.add series 0 / of_Z (Z.of_nat (length series)))%float.

(** Modelled from the spec: [stats.js] is missing. "sorts a copy of the
    series; for even length, returns the average of the two central
    elements; for odd length, the central element". *)
Definition median (series : list float) : float :=
  let s := sorted_copy series in
  let half := Z.of_nat (length s / 2) in
  if Nat.odd (length s) then elem s half
  else ((elem s (half - 1) + elem s half) / 2)%float.

(** Modelled from the spec: [stats.js] is missing. "the absolute differences
    between each consecutive pair of original-order samples". *)
Fixpoint deltas (series : list float) : list float :=
  match series with
  | a :: (b :: _) as t => abs (a - b)%float :: deltas t
  | _ => []
  end.

(** Modelled from the spec: [stats.js] is missing. "mean of the absolute
    differences between each consecutive pair of original-order samples";
    "returns 0 for a single-element series". *)
Definition jitter (series : list float) : float :=
  match series with
  | [_] => 0%float
  | _ => average (deltas series)
  end.

(** Modelled from the spec: [stats.js] is missing. "sorts a copy, linearly
    interpolates between the two nearest ranks at position q * (n - 1)". *)
Definition quartile (series : list float) (q : float) : float :=
  let s := sorted_copy series in
  let pos := (q * of_Z (Z.of_nat (length s) - 1))%float in
  let base := floorZ pos in
  let rest := (pos - of_Z base)%float in
  if (base + 1 <? Z.of_nat (length s))%Z
  then (elem s base + rest * (elem s (base + 1) - elem s base))%float
  else elem s base.

End stats.

(** Modelled from the spec: [stats.js] is missing; the instance built from
    the four functions above. *)
Definition stats_spec : StatsModule :=
  {| average := stats.average; median := stats.median;
     jitter := stats.jitter; quartile := stats.quartile |}.

(** ** Data model *)

(** What [request] resolves with. *)
Record TimedTransaction := {
  started : float;
  dnsLookup : option float;
  tcpHandshake : option float;
  sslHandshake : option float;
  ttfb : float;
  ended : float;
  serverTiming : float
}.

(** One HTTPS exchange as the transport delivers it: the clock readings taken
    at each event and the [server-timing] response header, if any. *)
Record Exchange := {
  at_start : float;
  at_lookup : option float;
  at_connect : option float;
  at_secureConnect : option float;
  at_readable : float;
  at_end : float;
  server_timing : option string
}.

(** How a transaction ends.  [request] sets no timeout and settles its
    promise on [error] of the request and on [end] of the response only: a
    transaction that stalls, emitting nothing any more, stays as it is. *)
Inductive NetResult :=
  | NetError (error : string)     (* the request emits [error] *)
  | NetEnd (x : Exchange)         (* the response stream emits [end] *)
  | NetSilence.                   (* the transaction stalls: no further event *)

(** The state a promise is left in. [Unsettled e]: a handler threw [e]
    outside the promise machinery; the promise is neither resolved nor
    rejected and [e] is an uncaught exception.  [Pending]: no handler ever
    ran; the promise is neither resolved nor rejected, and nothing is
    thrown. *)
Inductive Promise (A : Type) :=
  | Fulfilled (a : A)
  | Rejected (reason : string)
  | Unsettled (uncaught : string)
  | Pending.
Arguments Fulfilled {A} a.
Arguments Rejected {A} reason.
Arguments Unsettled {A} uncaught.
Arguments Pending {A}.

(** A transaction as [request] is asked for it: the [options] and the body
    written with [req.write(data)], a run of [body_length] characters "0". *)
Record Request := {
  hostname : string;
  path : string;
  method : string;
  content_length : option N;   (* the Content-Length header, if set *)
  body_length : N
}.

Record Latency := {
  l_min : string;
  l_max : string;
  l_average : string;
  l_median : string;
  l_jitter : string
}.

Record SpeedEntry := { size : string; speed : string }.

Record Results := {
  server_location : string;
  your_ip : string;
  latency : Latency;
  download_speeds : list SpeedEntry;
  upload_speeds : list SpeedEntry
}.

(** JSON values, as [JSON.stringify] sees [results]. *)
#[local] Unset Elimination Schemes.
Inductive json :=
  | JString (s : string)
  | JArray (items : list json)
  | JObject (fields : list (string * json)).
#[local] Set Elimination Schemes.

(** Console lines; the styling of [chalk.js] is not represented. *)
Inductive Line :=
  | InfoLine (pad text data : string)
  | LatencyLine (median_ms : string)
  | JitterLine (jitter_ms : string)
  | SpeedLine (pad display_size display_speed : string)
  | DownloadLine (display_speed : string)
  | UploadLine (display_speed : string)
  | JsonLine (document : json).

(** Everything outside the program.  The two plain GETs of [get] are
    represented by the bodies they deliver; their failure is not modelled. *)
Record World := {
  net : nat -> NetResult;             (* answer to the n-th [request] *)
  locations : list (string * string); (* parsed body of /locations: iata, city *)
  trace : string;                     (* body of /cdn-cgi/trace *)
  argv : list string                  (* process.argv *)
}.

Record State := {
  requests : list Request;   (* timed transactions issued, oldest first *)
  stderr : list string;      (* console.error *)
  stdout : list Line;        (* console.log *)
  flushing : bool;
  results : option Results
}.

Definition initial : State :=
  {| requests := []; stderr := []; stdout := []; flushing := true; results := None |}.

(** ** A state-and-abort monad

    [Abrupt e]: the program ends with the uncaught exception [e] (thrown in
    an event handler, or rejecting the promise of [speedTest], which nobody
    handles); the state shows what had happened until then.
    [Suspended]: the program awaits a promise that is never settled; no
    statement after that [await] is ever run, and the state shows what had
    happened until then. *)

Inductive Completion (A : Type) :=
  | Normal (a : A)
  | Abrupt (exception : string)
  | Suspended.
Arguments Normal {A} a.
Arguments Abrupt {A} exception.
Arguments Suspended {A}.

Definition M (A : Type) : Type := State -> Completion A * State.

Definition ret {A} (a : A) : M A := fun s => (Normal a, s).

Definition bind {A B} (m : M A) (k : A -> M B) : M B :=
  fun s => match m s with
           | (Normal a, s') => k a s'
           | (Abrupt e, s') => (Abrupt e, s')
           | (Suspended, s') => (Suspended, s')
           end.

Definition throw {A} (e : string) : M A := fun s => (Abrupt e, s).

(** [await] on a promise that stays pending. *)
Definition suspend {A} : M A := fun s => (Suspended, s).

Declare Scope js_scope.
Delimit Scope js_scope with js.
Notation "x <- m ;; k" := (bind m (fun x => k))
  (at level 100, m at next level, right associativity) : js_scope.
Notation "m ;; k" := (bind m (fun _ => k))
  (at level 100, right associativity) : js_scope.
Local Open Scope js_scope.

Definition console_error (line : string) : M unit :=
  fun s => (Normal tt,
            {| requests := requests s; stderr := stderr s ++ [line];
               stdout := stdout s; flushing := flushing s; results := results s |}).

Definition console_log (line : Line) : M unit :=
  fun s => (Normal tt,
            {| requests := requests s; stderr := stderr s;
               stdout := stdout s ++ [line]; flushing := flushing s;
               results := results s |}).

Definition get_flushing : M bool := fun s => (Normal (flushing s), s).

Definition set_flushing (b : bool) : M unit :=
  fun s => (Normal tt,
            {| requests := requests s; stderr := stderr s; stdout := stdout s;
               flushing := b; results := results s |}).

Definition set_results (r : Results) : M unit :=
  fun s => (Normal tt,
            {| requests := requests s; stderr := stderr s; stdout := stdout s;
               flushing := flushing s; results := Some r |}).

(** [results.<field>...] when [results] is still [undefined]. *)
Definition results_undefined : string :=
  "TypeError: Cannot read properties of undefined".

Definition get_results : M Results :=
  fun s => match results s with
           | Some r => (Normal r, s)
           | None => (Abrupt results_undefined, s)
           end.

(** ** The program *)

Section Program.

Context {stats : StatsModule}.
Variable w : World.

(** [fetchServerLocationData]: the records of /locations folded into an
    object keyed by [iata]. *)
Definition fetchServerLocationData : gmap string string :=
  fold_left (fun data '(iata, city) => obj_set data iata city) (locations w) ∅.

(** [parseCfCdnCgiTrace], the parser inside [fetchCfCdnCgiTrace]. *)
Definition parseCfCdnCgiTrace (text : string) : gmap string string :=
  fold_left
    (fun data '(k, v) =>
       match v with
       | None => data
       | Some v => obj_set data k v
       end)
    (map (fun i => let j := split "=" i in (nth 0 j EmptyString, nth_error j 1))
         (split "010" text))
    ∅.

Definition fetchCfCdnCgiTrace : gmap string string :=
  parseCfCdnCgiTrace (trace w).

(** The [end] handler of [request]: it reads the header, then resolves. *)
Definition slice_of_undefined : string :=
  "TypeError: Cannot read properties of undefined (reading 'slice')".

Definition on_end (x : Exchange) : Promise TimedTransaction :=
  match server_timing x with
  | None => Unsettled slice_of_undefined
  | Some header =>
      Fulfilled {| started := at_start x;
                   dnsLookup := at_lookup x;
                   tcpHandshake := at_connect x;
                   sslHandshake := at_secureConnect x;
                   ttfb := at_readable x;
                   ended := at_end x;
                   serverTiming := parseFloat (slice 22 header) |}
  end.

Definition settle (r : NetResult) : Promise TimedTransaction :=
  match r with
  | NetError error => Rejected error
  | NetEnd x => on_end x
  | NetSilence => Pending
  end.

(** [request(options, data)]: one transaction on a connection of its own,
    answered by the transport; the promise is left as [settle] says. *)
Definition request (options : Request) : M (Promise TimedTransaction) :=
  fun s =>
    (Normal (settle (net w (length (requests s)))),
     {| requests := requests s ++ [options]; stderr := stderr s;
        stdout := stdout s; flushing := flushing s; results := results s |}).

Definition download_options (bytes : N) : Request :=
  {| hostname := "speed.cloudflare.com";
     path := "/__down?bytes=" ++ N_to_string bytes;
     method := "GET";
     content_length := None;
     body_length := 0 |}.

Definition upload_options (bytes : N) : Request :=
  {| hostname := "speed.cloudflare.com";
     path := "/__up";
     method := "POST";
     content_length := Some bytes;
     body_length := bytes |}.

Definition download (bytes : N) : M (Promise TimedTransaction) :=
  request (download_options bytes).

Definition upload (bytes : N) : M (Promise TimedTransaction) :=
  request (upload_options bytes).

Definition measureSpeed (bytes duration : float) : float :=
  ((bytes * 8) / (duration / 1000) / 1e6)%float.

(** The loop shared by [measureLatency], [measureDownload] and
    [measureUpload]:
    [for (i = 0; i < iterations; i += 1) await call().then(push, log)]. *)
Fixpoint trials {A} (call : M (Promise A)) (measure : A -> float)
         (iterations : nat) (measurements : list float) : M (list float) :=
  match iterations with
  | O => ret measurements
  | S rest =>
      p <- call ;;
      match p with
      | Fulfilled response =>
          trials call measure rest (measurements ++ [measure response])
      | Rejected error =>
          console_error ("Error: " ++ error) ;;
          trials call measure rest measurements
      | Unsettled e => throw e
      | Pending => suspend
      end
  end.

Definition latency_of (response : TimedTransaction) : float :=
  (ttfb response - started response - serverTiming response)%float.

Definition download_speed_of (bytes : N) (response : TimedTransaction) : float :=
  let transferTime := (ended response - ttfb response)%float in
  measureSpeed (of_N bytes) transferTime.

Definition upload_speed_of (bytes : N) (response : TimedTransaction) : float :=
  let transferTime := serverTiming response in
  measureSpeed (of_N bytes) transferTime.

Definition measureLatency : M (list float) :=
  measurements <- trials (download 1000) latency_of 20 [] ;;
  ret [Math_min measurements; Math_max measurements; average measurements;
       median measurements; jitter measurements].

Definition measureDownload (bytes : N) (iterations : nat) : M (list float) :=
  trials (download bytes) (download_speed_of bytes) iterations [].

Definition measureUpload (bytes : N) (iterations : nat) : M (list float) :=
  trials (upload bytes) (upload_speed_of bytes) iterations [].

Definition range_error : string := "RangeError: Invalid count value".

Definition logInfo (text data : string) : M unit :=
  f <- get_flushing ;;
  if f then
    match repeat_space (15 - Z.of_nat (String.length text)) with
    | Some pad => console_log (InfoLine pad (text ++ ":") data)
    | None => throw range_error
    end
  else ret tt.

Definition logLatency (data : Latency) : M unit :=
  f <- get_flushing ;;
  if f then
    console_log (LatencyLine (l_median data ++ " ms")) ;;
    console_log (JitterLine (l_jitter data ++ " ms"))
  else ret tt.

Definition push_download (e : SpeedEntry) : M unit :=
  r <- get_results ;;
  set_results {| server_location := server_location r; your_ip := your_ip r;
                 latency := latency r;
                 download_speeds := download_speeds r ++ [e];
                 upload_speeds := upload_speeds r |}.

Definition push_upload (e : SpeedEntry) : M unit :=
  r <- get_results ;;
  set_results {| server_location := server_location r; your_ip := your_ip r;
                 latency := latency r;
                 download_speeds := download_speeds r;
                 upload_speeds := upload_speeds r ++ [e] |}.

Definition logSpeedTestResult (display_size : string) (test : list float) : M unit :=
  let display_speed := toFixed2 (median test) in
  f <- get_flushing ;;
  if f then
    match repeat_space (9 - Z.of_nat (String.length display_size)) with
    | Some pad => console_log (SpeedLine pad display_size (display_speed ++ " Mbps"))
    | None => throw range_error
    end
  else push_download {| size := display_size; speed := display_speed |}.

Definition logDownloadSpeed (tests : list float) : M unit :=
  let display_speed := toFixed2 (quartile tests 0.9) in
  f <- get_flushing ;;
  if f then console_log (DownloadLine display_speed)
  else push_download {| size := "overall"; speed := display_speed |}.

Definition logUploadSpeed (tests : list float) : M unit :=
  let display_speed := toFixed2 (quartile tests 0.9) in
  f <- get_flushing ;;
  if f then console_log (UploadLine display_speed)
  else push_upload {| size := "overall"; speed := display_speed |}.

(** [parseArgs]: the names of the [--name] flags after the first two
    arguments; [args.name] is [true] exactly for them. *)
Definition parseArgs : gset string :=
  fold_left
    (fun args arg =>
       if String.prefix "--" arg then
         (if String.eqb (slice 2 arg) "__proto__" then args
          else {[slice 2 arg]} ∪ args)
       else args)
    (skipn 2 (argv w)) ∅.

Definition entry_json (e : SpeedEntry) : json :=
  JObject [("size", JString (size e)); ("speed", JString (speed e))].

Definition results_json (r : Results) : json :=
  JObject
    [("server_location", JString (server_location r));
     ("your_ip", JString (your_ip r));
     ("latency",
      JObject [("min", JString (l_min (latency r)));
               ("max", JString (l_max (latency r)));
               ("average", JString (l_average (latency r)));
               ("median", JString (l_median (latency r)));
               ("jitter", JString (l_jitter (latency r)))]);
     ("download_speeds", JArray (map entry_json (download_speeds r)));
     ("upload_speeds", JArray (map entry_json (upload_speeds r)))].

(** [ping[i].toFixed(2)]: a [TypeError] where [ping[i]] is [undefined]. *)
Definition toFixed_at (ping : list float) (i : nat) : M string :=
  match nth_error ping i with
  | Some x => ret (toFixed2 x)
  | None => throw "TypeError: Cannot read properties of undefined (reading 'toFixed')"
  end.

(** [speedTest].  The three operations under [Promise.all] share no state:
    the latency probes are the only timed transactions among them, so they
    are run first and the two lookups are read from the world. *)
Definition speedTest : M unit :=
  let args := parseArgs in
  let json_flag := bool_decide ("json" ∈ args) in
  ping <- measureLatency ;;
  let serverLocationData := fetchServerLocationData in
  let cf := fetchCfCdnCgiTrace in
  let ip := cf !! "ip" in
  let loc := cf !! "loc" in
  let colo := cf !! "colo" in
  set_flushing (negb json_flag) ;;
  let city := get_text serverLocationData (show colo) in
  p0 <- toFixed_at ping 0 ;;
  p1 <- toFixed_at ping 1 ;;
  p2 <- toFixed_at ping 2 ;;
  p3 <- toFixed_at ping 3 ;;
  p4 <- toFixed_at ping 4 ;;
  let r :=
    {| server_location := city ++ " (" ++ show colo ++ ")";
       your_ip := show ip ++ " (" ++ show loc ++ ")";
       latency := {| l_min := p0; l_max := p1; l_average := p2;
                     l_median := p3; l_jitter := p4 |};
       download_speeds := [];
       upload_speeds := [] |} in
  set_results r ;;
  logInfo "Server Location" (server_location r) ;;
  logInfo "Your IP" (your_ip r) ;;
  logLatency (latency r) ;;
  testDown1 <- measureDownload 101000 10 ;;
  logSpeedTestResult "100kB" testDown1 ;;
  testDown2 <- measureDownload 1001000 8 ;;
  logSpeedTestResult "1MB" testDown2 ;;
  testDown3 <- measureDownload 10001000 6 ;;
  logSpeedTestResult "10MB" testDown3 ;;
  testDown4 <- measureDownload 25001000 4 ;;
  logSpeedTestResult "25MB" testDown4 ;;
  testDown5 <- measureDownload 100001000 1 ;;
  logSpeedTestResult "100MB" testDown5 ;;
  let downloadTests := testDown1 ++ testDown2 ++ testDown3 ++ testDown4 ++ testDown5 in
  logDownloadSpeed downloadTests ;;
  testUp1 <- measureUpload 11000 10 ;;
  testUp2 <- measureUpload 101000 10 ;;
  testUp3 <- measureUpload 1001000 8 ;;
  let uploadTests := testUp1 ++ testUp2 ++ testUp3 in
  logUploadSpeed uploadTests ;;
  if json_flag then
    r <- get_results ;;
    console_log (JsonLine (results_json r))
  else ret tt.

End Program.

(** ** Vocabulary of the statements *)

(** The transactions a promise list resolved with, in order. *)
Fixpoint fulfilled {A} (ps : list (Promise A)) : list A :=
  match ps with
  | [] => []
  | Fulfilled a :: rest => a :: fulfilled rest
  | _ :: rest => fulfilled rest
  end.

(** The reasons a promise list was rejected with, in order. *)
Fixpoint rejections {A} (ps : list (Promise A)) : list string :=
  match ps with
  | [] => []
  | Rejected e :: rest => e :: rejections rest
  | _ :: rest => rejections rest
  end.

Definition is_settled {A} (p : Promise A) : bool :=
  match p with Fulfilled _ | Rejected _ => true | _ => false end.

Definition is_rejected {A} (p : Promise A) : bool :=
  match p with Rejected _ => true | _ => false end.

(** The outcomes of the [n] transactions issued from the [i]-th on. *)
Definition answers (w : World) (i n : nat) : list (Promise TimedTransaction) :=
  map (fun j => settle (net w j)) (seq i n).

(** Every one of the [n] transactions issued from the [i]-th on resolves or
    rejects. *)
Definition settled (w : World) (i n : nat) : bool :=
  forallb is_settled (answers w i n).

(** What [console.error] receives for a rejection. *)
Definition error_line (reason : string) : string := "Error: " ++ reason.

(** The state after [n] more transactions with options [options]. *)
Definition after_trials (w : World) (options : Request) (n : nat) (s : State) : State :=
  {| requests := requests s ++ repeat options n;
     stderr := stderr s
               ++ map error_line (rejections (answers w (length (requests s)) n));
     stdout := stdout s;
     flushing := flushing s;
     results := results s |}.

(** The series a run of [n] trials starting at transaction [i] collects. *)
Definition tier (w : World) (measure : TimedTransaction -> float) (i n : nat) : list float :=
  map measure (fulfilled (answers w i n)).

(** The header carries no numeric duration where [request] reads it. *)
Definition no_duration (header : string) : bool :=
  match decimal_prefix (trim_start (slice 22 header)) with
  | None => true
  | Some _ => false
  end.

(** The text before the first [sep] and the text after it, if [sep] occurs. *)
Fixpoint cut (sep : ascii) (s : string) : option (string * string) :=
  match s with
  | EmptyString => None
  | String c r =>
      if Ascii.eqb c sep then Some (EmptyString, r)
      else match cut sep r with
           | Some (a, b) => Some (String c a, b)
           | None => None
           end
  end.

(** A line read as [key=value]: the key is the text before the first [=],
    the value the text between the first [=] and the second one (or the end
    of the line). *)
Definition key_value (line : string) : option (string * string) :=
  match cut "=" line with
  | None => None
  | Some (k, rest) =>
      Some (k, match cut "=" rest with Some (v, _) => v | None => rest end)
  end.

(** The value of the last line with key [k], starting from [found]. *)
Definition last_value_from (k : string) (lines : list string) (found : option string)
  : option string :=
  fold_left
    (fun found line =>
       match key_value line with
       | Some (k', v) => if String.eqb k' k then Some v else found
       | None => found
       end)
    lines found.

Definition last_value (k : string) (lines : list string) : option string :=
  last_value_from k lines None.

(** A string of decimal digits only. *)
Fixpoint all_digits (s : string) : bool :=
  match s with
  | EmptyString => true
  | String c r => is_digit c && all_digits r
  end.

(** A string of the shape [-?digits.dd]: a number written with exactly two
    decimals. *)
Definition unsigned_two_decimal (body : string) : bool :=
  let (ip, rest) := span_digits body in
  negb (String.eqb ip EmptyString)
  && match rest with
     | String "." (String a (String b EmptyString)) => is_digit a && is_digit b
     | _ => false
     end.

Definition two_decimal_format (s : string) : bool :=
  match s with
  | String "-" body => unsigned_two_decimal body
  | _ => unsigned_two_decimal s
  end.

(** The run of [speedTest] on a transport whose transactions all settle:
    the series of each phase and what the run leaves behind. *)
Section Expected.

Context {stats : StatsModule}.
Variable w : World.

Definition pings : list float := tier w latency_of 0 20.
Definition testDown1 : list float := tier w (download_speed_of 101000) 20 10.
Definition testDown2 : list float := tier w (download_speed_of 1001000) 30 8.
Definition testDown3 : list float := tier w (download_speed_of 10001000) 38 6.
Definition testDown4 : list float := tier w (download_speed_of 25001000) 44 4.
Definition testDown5 : list float := tier w (download_speed_of 100001000) 48 1.
Definition testUp1 : list float := tier w (upload_speed_of 11000) 49 10.
Definition testUp2 : list float := tier w (upload_speed_of 101000) 59 10.
Definition testUp3 : list float := tier w (upload_speed_of 1001000) 69 8.

Definition downloadTests : list float :=
  testDown1 ++ testDown2 ++ testDown3 ++ testDown4 ++ testDown5.

Definition uploadTests : list float := testUp1 ++ testUp2 ++ testUp3.

Definition json_mode : bool := bool_decide ("json" ∈ parseArgs w).

Definition colo : option string := fetchCfCdnCgiTrace w !! "colo".

Definition header_results : Results :=
  {| server_location :=
       get_text (fetchServerLocationData w) (show colo) ++ " (" ++ show colo ++ ")";
     your_ip :=
       show (fetchCfCdnCgiTrace w !! "ip") ++ " ("
       ++ show (fetchCfCdnCgiTrace w !! "loc") ++ ")";
     latency :=
       {| l_min := toFixed2 (Math_min pings);
          l_max := toFixed2 (Math_max pings);
          l_average := toFixed2 (average pings);
          l_median := toFixed2 (median pings);
          l_jitter := toFixed2 (jitter pings) |};
     download_speeds := [];
     upload_speeds := [] |}.

Definition json_results : Results :=
  {| server_location := server_location header_results;
     your_ip := your_ip header_results;
     latency := latency header_results;
     download_speeds :=
       [ {| size := "100kB"; speed := toFixed2 (median testDown1) |};
         {| size := "1MB"; speed := toFixed2 (median testDown2) |};
         {| size := "10MB"; speed := toFixed2 (median testDown3) |};
         {| size := "25MB"; speed := toFixed2 (median testDown4) |};
         {| size := "100MB"; speed := toFixed2 (median testDown5) |};
         {| size := "overall"; speed := toFixed2 (quartile downloadTests 0.9) |} ];
     upload_speeds :=
       [ {| size := "overall"; speed := toFixed2 (quartile uploadTests 0.9) |} ] |}.

Definition console_lines : list Line :=
  [ InfoLine "" "Server Location:" (server_location header_results);
    InfoLine "        " "Your IP:" (your_ip header_results);
    LatencyLine (toFixed2 (median pings) ++ " ms");
    JitterLine (toFixed2 (jitter pings) ++ " ms");
    SpeedLine "    " "100kB" (toFixed2 (median testDown1) ++ " Mbps");
    SpeedLine "      " "1MB" (toFixed2 (median testDown2) ++ " Mbps");
    SpeedLine "     " "10MB" (toFixed2 (median testDown3) ++ " Mbps");
    SpeedLine "     " "25MB" (toFixed2 (median testDown4) ++ " Mbps");
    SpeedLine "    " "100MB" (toFixed2 (median testDown5) ++ " Mbps");
    DownloadLine (toFixed2 (quartile downloadTests 0.9));
    UploadLine (toFixed2 (quartile uploadTests 0.9)) ].

Definition planned_requests : list Request :=
  repeat (download_options 1000) 20
  ++ repeat (download_options 101000) 10
  ++ repeat (download_options 1001000) 8
  ++ repeat (download_options 10001000) 6
  ++ repeat (download_options 25001000) 4
  ++ repeat (download_options 100001000) 1
  ++ repeat (upload_options 11000) 10
  ++ repeat (upload_options 101000) 10
  ++ repeat (upload_options 1001000) 8.

Definition final_state : State :=
  {| requests := planned_requests;
     stderr := map error_line (rejections (answers w 0 77));
     stdout := if json_mode then [JsonLine (results_json json_results)]
               else console_lines;
     flushing := negb json_mode;
     results := Some (if json_mode then json_results else header_results) |}.

End Expected.

(** [m] issues the transactions [L], in order, when it completes normally,
    and a prefix of them when it does not. *)
Definition issues {A} (m : M A) (L : list Request) : Prop :=
  forall s, exists L',
    requests (snd (m s)) = requests s ++ L'
    /\ L' `prefix_of` L
    /\ (forall a, fst (m s) = Normal a -> L' = L).

(** A sweep in which a larger payload never gets more trials. *)
Fixpoint larger_fewer (tiers : list (N * nat)) : bool :=
  match tiers with
  | (b1, n1) :: ((b2, n2) :: _) as rest =>
      (b1 <? b2)%N && (n2 <=? n1)%nat && larger_fewer rest
  | _ => true
  end.

(** A field of a JSON object. *)
Definition json_get (k : string) (j : json) : option json :=
  match j with
  | JObject fields =>
      match find (fun kv => String.eqb (fst kv) k) fields with
      | Some (_, v) => Some v
      | None => None
      end
  | _ => None
  end.

Definition json_path (ks : list string) (j : json) : option json :=
  fold_left (fun o k => match o with Some v => json_get k v | None => None end)
            ks (Some j).

(** ** Sample transports *)

(** A response first readable 50 ms after the start, ended 50 ms later, with
    a [server-timing] header of 10 ms. *)
Definition exchange_10ms : Exchange :=
  {| at_start := 100; at_lookup := Some 110%float; at_connect := Some 120%float;
     at_secureConnect := Some 130%float; at_readable := 150; at_end := 200;
     server_timing := Some "cfRequestDuration;dur=10" |}.

(** A response whose body took 500 ms to arrive. *)
Definition exchange_500ms : Exchange :=
  {| at_start := 50; at_lookup := None; at_connect := None;
     at_secureConnect := None; at_readable := 100; at_end := 600;
     server_timing := Some "cfRequestDuration;dur=10.0" |}.

(** A response whose [server-timing] header names another metric. *)
Definition exchange_other_metric : Exchange :=
  {| at_start := 100; at_lookup := None; at_connect := None;
     at_secureConnect := None; at_readable := 150; at_end := 200;
     server_timing := Some "cache;desc=hit, origin;dur=12.5" |}.

(** A transport on which every third transaction fails. *)
Definition every_third_fails : World :=
  {| net := fun i => if (i mod 3 =? 2)%nat then NetError "Error: socket hang up"
                     else NetEnd exchange_500ms;
     locations := [("IAD", "Ashburn"); ("LAX", "Los Angeles")];
     trace := "ip=192.168.1.1" ++ String "010" ("loc=US" ++ String "010" "colo=IAD");
     argv := ["node"; "cli.js"] |}.

(** The same transport, asked for the JSON report. *)
Definition every_third_fails_json : World :=
  {| net := net every_third_fails;
     locations := locations every_third_fails;
     trace := trace every_third_fails;
     argv := ["node"; "cli.js"; "--json"] |}.

(** A transport on which the twenty latency probes fail and every later
    transaction succeeds; JSON report. *)
Definition probes_fail : World :=
  {| net := fun i => if (i <? 20)%nat then NetError "Error: connect ETIMEDOUT"
                     else NetEnd exchange_500ms;
     locations := [("IAD", "Ashburn")];
     trace := trace every_third_fails;
     argv := ["node"; "cli.js"; "--json"] |}.

(** A response that carries no [server-timing] header. *)
Definition exchange_headerless : Exchange :=
  {| at_start := 50; at_lookup := None; at_connect := None;
     at_secureConnect := None; at_readable := 100; at_end := 600;
     server_timing := None |}.

(** A transport on which every third response comes without the header. *)
Definition every_third_headerless : World :=
  {| net := fun i => if (i mod 3 =? 2)%nat then NetEnd exchange_headerless
                     else NetEnd exchange_500ms;
     locations := [("IAD", "Ashburn"); ("LAX", "Los Angeles")];
     trace := trace every_third_fails;
     argv := ["node"; "cli.js"] |}.

(** A transport on which no response carries the header. *)
Definition headerless : World :=
  {| net := fun _ => NetEnd exchange_headerless;
     locations := [("IAD", "Ashburn"); ("LAX", "Los Angeles")];
     trace := trace every_third_fails;
     argv := ["node"; "cli.js"] |}.

(** A transport that answers every transaction, with a trace whose
    routing-node code is a name every object inherits. *)
Definition inherited_colo : World :=
  {| net := fun _ => NetEnd exchange_10ms;
     locations := [("IAD", "Ashburn"); ("LAX", "Los Angeles")];
     trace := "ip=10.0.0.1" ++ String "010" "colo=constructor";
     argv := ["node"; "cli.js"] |}.

(** A transport whose third transaction stalls. *)
Definition silence_at_2 : World :=
  {| net := fun i =>
       if (i =? 2)%nat then NetSilence
       else if (i =? 1)%nat then NetError "Error: read ECONNRESET"
       else NetEnd exchange_500ms;
     locations := [];
     trace := "";
     argv := ["node"; "cli.js"] |}.

(** ** [get]: the plain GET of /locations and /cdn-cgi/trace

    [get] is a promise around one [https.request].  What it does is fixed by
    the listeners it attaches and by when it attaches them: the response
    callback from the start (once), and the [data], [end] and [error]
    listeners only inside that callback.  The embedding runs these listeners
    over the events the request emits. *)

(** Events of the request and of its response.  Chunks are byte strings;
    the decoding of [toString] is not represented. *)
Inductive Event :=
  | Response
  | Data (chunk : string)
  | End
  | Error (err : string).

Record Get := {
  attached : bool;                     (* the response callback has run *)
  body : list string;                  (* [body], oldest chunk first *)
  promise : option (string + string);  (* pending, resolved or rejected *)
  uncaught : option string             (* an [error] event without listener *)
}.

(** [resolve] and [reject] act on a pending promise only. *)
Definition settle_once (v : string + string) (g : Get) : Get :=
  {| attached := attached g; body := body g;
     promise := match promise g with None => Some v | p => p end;
     uncaught := uncaught g |}.

(** One event.  An [error] event that finds no listener is thrown by the
    emitter and ends the process; events without listener are dropped. *)
Definition get_event (g : Get) (e : Event) : Get :=
  match uncaught g with
  | Some _ => g
  | None =>
      match e, attached g with
      | Response, false =>
          {| attached := true; body := []; promise := promise g;
             uncaught := None |}
      | Response, true => g
      | Data chunk, true =>
          {| attached := true; body := body g ++ [chunk]; promise := promise g;
             uncaught := None |}
      | End, true => settle_once (inl (String.concat "" (body g))) g
      | Error err, true => settle_once (inr err) g
      | Error err, false =>
          {| attached := false; body := body g; promise := promise g;
             uncaught := Some err |}
      | _, false => g
      end
  end.

Definition get_started : Get :=
  {| attached := false; body := []; promise := None; uncaught := None |}.

(** [get(hostname, path)] over the events of its request. *)
Definition get (events : list Event) : Get :=
  fold_left get_event events get_started.

(** ** Vocabulary of the further properties *)

(** A transport on which the eighth probe carries another metric in its
    header. *)
Definition one_bad_probe : World :=
  {| net := fun i => if (i =? 7)%nat then NetEnd exchange_other_metric
                     else NetEnd exchange_10ms;
     locations := [("IAD", "Ashburn")];
     trace := trace every_third_fails;
     argv := ["node"; "cli.js"; "--json"] |}.

(** The promise was resolved. *)
Definition is_fulfilled {A} (p : Promise A) : bool :=
  match p with Fulfilled _ => true | _ => false end.

(** A transport whose third transaction comes back without the header. *)
Definition header_missing_at_2 : World :=
  {| net := fun i =>
       if (i =? 2)%nat then
         NetEnd {| at_start := 0; at_lookup := None; at_connect := None;
                   at_secureConnect := None; at_readable := 10; at_end := 20;
                   server_timing := None |}
       else if (i =? 1)%nat then NetError "Error: read ECONNRESET"
       else NetEnd exchange_500ms;
     locations := [];
     trace := "";
     argv := ["node"; "cli.js"; "--json"] |}.

(** The city of the last record with code [k], starting from [found]. *)
Definition last_city_from (k : string) (records : list (string * string))
           (found : option string) : option string :=
  fold_left (fun found '(iata, city) => if String.eqb iata k then Some city else found)
            records found.

(** The character [c] does not occur in [s]. *)
Fixpoint lacks (c : ascii) (s : string) : bool :=
  match s with
  | EmptyString => true
  | String d r => negb (Ascii.eqb d c) && lacks c r
  end.

(** A trace entry that survives a round trip: neither part contains [=] or
    a line feed, and the key is not [__proto__]. *)
Definition plain_entry (e : string * string) : bool :=
  lacks "=" (fst e) && lacks "010" (fst e)
  && lacks "=" (snd e) && lacks "010" (snd e)
  && negb (String.eqb (fst e) "__proto__").

(** The body of /cdn-cgi/trace for a list of entries: one [key=value] line
    each, every line ended by a line feed. *)
Fixpoint trace_body (entries : list (string * string)) : string :=
  match entries with
  | [] => EmptyString
  | (k, v) :: rest => k ++ String "=" (v ++ String "010" (trace_body rest))
  end.

(** The value of the last entry with key [k], starting from [found]. *)
Definition last_entry_from (k : string) (entries : list (string * string))
           (found : option string) : option string :=
  fold_left (fun found '(k', v) => if String.eqb k' k then Some v else found)
            entries found.

(** [m] leaves the console and the output mode as they are. *)
Definition keeps_console {A} (m : M A) : Prop :=
  forall s, stdout (snd (m s)) = stdout s /\ flushing (snd (m s)) = flushing s.

(** With [flushing] off, [m] prints nothing and leaves it off. *)
Definition silent {A} (m : M A) : Prop :=
  forall s, flushing s = false ->
            stdout (snd (m s)) = stdout s /\ flushing (snd (m s)) = false.

(** Started with an empty console, [m] ends with the document alone when it
    completes and with an empty console when it does not. *)
Definition document_or_nothing {A} (m : M A) : Prop :=
  forall s, stdout s = [] ->
    match fst (m s) with
    | Normal _ => exists document, stdout (snd (m s)) = [JsonLine document]
    | Abrupt _ | Suspended => stdout (snd (m s)) = []
    end.

(** The same, for a computation started with [flushing] off. *)
Definition document_or_nothing_quiet {A} (m : M A) : Prop :=
  forall s, stdout s = [] -> flushing s = false ->
    match fst (m s) with
    | Normal _ => exists document, stdout (snd (m s)) = [JsonLine document]
    | Abrupt _ | Suspended => stdout (snd (m s)) = []
    end.

(** A transport that answers every transaction, with a trace naming a
    routing node that /locations does not list. *)
Definition unlisted_colo : World :=
  {| net := fun _ => NetEnd exchange_10ms;
     locations := [("IAD", "Ashburn"); ("LAX", "Los Angeles")];
     trace := "ip=10.0.0.1" ++ String "010" ("colo=ZZZ" ++ String "010" "");
     argv := ["node"; "cli.js"] |}.

(** [Number.MAX_SAFE_INTEGER], 2^53 - 1: up to here a byte count is an
    exact number and its decimal string has no exponent. *)
Definition MAX_SAFE_INTEGER : N := 9007199254740991.

(** A transport that answers every transaction. *)
Definition always_answers : World :=
  {| net := fun _ => NetEnd exchange_10ms;
     locations := [("IAD", "Ashburn")];
     trace := "colo=IAD";
     argv := ["node"; "cli.js"] |}.

(** When [m] completes it has issued the transactions [L], and each of them
    resolved or was rejected. *)
Definition completes_on (w : World) {A} (m : M A) (L : list Request) : Prop :=
  forall s, match m s with
            | (Normal _, s') =>
                requests s' = requests s ++ L
                /\ settled w (length (requests s)) (length L) = true
            | _ => True
            end.

(** * Properties *)

(** ** Built-ins and the statistics of the specification, on examples *)

Example parseFloat_header :
  parseFloat (slice 22 "cfRequestDuration;dur=50.0") = 50%float
  /\ parseFloat "12.5;desc=x" = 12.5%float
  /\ parseFloat "" = nan
  /\ parseFloat "dur=3" = nan.
Proof. repeat split. Qed.

(** White space before the number is skipped, the no-break space
    included. *)
Example parseFloat_white_space :
  parseFloat (String "160" "7.5") = 7.5%float
  /\ parseFloat (String "009" (String " " "12")) = 12%float
  /\ no_duration ("cfRequestDuration;dur=" ++ String "160" "7.5") = false.
Proof. repeat split. Qed.

(** Reading a name from an object in a template literal. *)
Example get_text_examples :
  let data : gmap string string := {["IAD" := "Ashburn"]} in
  get_text data "IAD" = "Ashburn"
  /\ get_text data "ZZZ" = "undefined"
  /\ get_text data "constructor" = "function Object() { [native code] }"
  /\ get_text data "toString" = "function toString() { [native code] }"
  /\ get_text data "__proto__" = "[object Object]"
  /\ get_text (obj_set data "toString" "Springfield") "toString" = "Springfield".
Proof. repeat split. Qed.

Example toFixed2_examples :
  toFixed2 8 = "8.00" /\ toFixed2 0.125 = "0.13" /\ toFixed2 1.005 = "1.00"
  /\ toFixed2 (-0.001) = "-0.00" /\ toFixed2 1e21 = "1e+21"
  /\ toFixed2 1e23 = "1e+23" /\ toFixed2 (of_Z (2 ^ 70)) = "1.1805916207174113e+21".
Proof. repeat split; vm_compute; reflexivity. Qed.

Example Math_min_max_empty :
  Math_min [] = infinity /\ Math_max [] = neg_infinity.
Proof. split; reflexivity. Qed.

Example stats_spec_examples :
  stats.median [1; 2; 3; 4; 5]%float = 3%float
  /\ stats.median [1; 2; 3; 4]%float = 2.5%float
  /\ stats.jitter [10; 10; 10]%float = 0%float
  /\ stats.jitter [10; 20]%float = 10%float
  /\ stats.quartile [3; 1; 2]%float 0 = 1%float
  /\ stats.quartile [3; 1; 2]%float 1 = 3%float.
Proof. repeat split; vm_compute; reflexivity. Qed.

(** ** The monad *)

Lemma bind_normal {A B} (m : M A) (k : A -> M B) s a s' :
  m s = (Normal a, s') -> bind m k s = k a s'.
Proof. intros H. unfold bind. now rewrite H. Qed.

Lemma bind_abrupt {A B} (m : M A) (k : A -> M B) s e s' :
  m s = (Abrupt e, s') -> bind m k s = (Abrupt e, s').
Proof. intros H. unfold bind. now rewrite H. Qed.

(** ** The trial loop *)

Lemma answers_S w i n :
  answers w i (S n) = settle (net w i) :: answers w (S i) n.
Proof. reflexivity. Qed.

Lemma settled_S w i n :
  settled w i (S n) = is_settled (settle (net w i)) && settled w (S i) n.
Proof. reflexivity. Qed.

(** A run of [iterations] trials whose transactions all resolve or reject
    returns the measurements of the resolved ones, appended in order to what
    was collected before, and logs one line per rejection. *)
Lemma trials_request w options measure iterations :
  forall measurements s,
    settled w (length (requests s)) iterations = true ->
    trials (request w options) measure iterations measurements s
    = (Normal (measurements ++ tier w measure (length (requests s)) iterations),
       after_trials w options iterations s).
Proof.
  unfold tier.
  induction iterations as [|n IH]; intros acc s Hs.
  - cbn. unfold ret, after_trials. cbn. rewrite !app_nil_r. now destruct s.
  - rewrite settled_S in Hs. apply andb_true_iff in Hs as [Hp Ht].
    cbn [trials]. unfold bind at 1. unfold request at 1.
    destruct (settle (net w (length (requests s)))) as [r|e|u|] eqn:E;
      [| | discriminate Hp | discriminate Hp].
    + rewrite IH; cbn [requests]; rewrite length_app, Nat.add_1_r; [|exact Ht].
      unfold after_trials. cbn [requests stderr stdout flushing results].
      rewrite length_app, Nat.add_1_r, answers_S, E.
      cbn. rewrite <- !app_assoc. reflexivity.
    + unfold bind, console_error. cbn [requests stderr stdout flushing results].
      rewrite IH; cbn [requests]; rewrite length_app, Nat.add_1_r; [|exact Ht].
      unfold after_trials. cbn [requests stderr stdout flushing results].
      rewrite length_app, Nat.add_1_r, answers_S, E.
      cbn. rewrite <- !app_assoc. reflexivity.
Qed.

Lemma length_fulfilled {A} (ps : list (Promise A)) :
  length (fulfilled ps) <= length ps.
Proof.
  induction ps as [|[a|e|u|] ps IH]; cbn; lia.
Qed.

Lemma fulfilled_all_rejected {A} (ps : list (Promise A)) :
  forallb is_rejected ps = true -> fulfilled ps = [].
Proof.
  induction ps as [|[a|e|u|] ps IH]; cbn; intros H; try discriminate; auto.
Qed.

Lemma length_answers w i n : length (answers w i n) = n.
Proof. unfold answers. now rewrite length_map, length_seq. Qed.

(** ** Measurements *)

(** C2: the throughput formula is
    [(byteCount * 8) / (durationMs / 1000) / 1,000,000], evaluated in that
    order on binary64 numbers, and one million bytes in 1000 ms give 8. *)
Theorem measureSpeed_formula :
  (forall byteCount durationMs : float,
      measureSpeed byteCount durationMs
      = ((byteCount * 8) / (durationMs / 1000) / 1000000)%float)
  /\ measureSpeed 1000000 1000 = 8%float.
Proof. split; [intros; reflexivity | vm_compute; reflexivity]. Qed.

(** C1: the series that [measureLatency] reduces to its five statistics
    consists, for the resolved probes in order, of
    [ttfb - started - serverTiming]; a response with started = 100, first
    byte at 150 and a server-reported 10 ms gives 40, also when the 10 ms are
    read from the response header. *)
Theorem measureLatency_measurement `{StatsModule} (w : World) (s : State) :
  settled w (length (requests s)) 20 = true ->
  (let measurements :=
     map (fun r => (ttfb r - started r - serverTiming r)%float)
         (fulfilled (answers w (length (requests s)) 20)) in
   measureLatency w s
   = (Normal [Math_min measurements; Math_max measurements;
              average measurements; median measurements; jitter measurements],
      after_trials w (download_options 1000) 20 s))
  /\ (forall dns tcp ssl completed,
        latency_of {| started := 100; dnsLookup := dns; tcpHandshake := tcp;
                      sslHandshake := ssl; ttfb := 150; ended := completed;
                      serverTiming := 10 |} = 40%float)
  /\ option_map latency_of
        (match settle (NetEnd exchange_10ms) with
         | Fulfilled r => Some r
         | _ => None
         end) = Some 40%float.
Proof.
  intros Hs. split; [|split].
  - cbn zeta. unfold measureLatency, download.
    erewrite bind_normal by (apply trials_request; exact Hs).
    reflexivity.
  - intros. vm_compute. reflexivity.
  - vm_compute. reflexivity.
Qed.

Lemma measureLatency_measurement_witness :
  settled every_third_fails (length (requests initial)) 20 = true
  /\ fst (measureLatency (stats := stats_spec) every_third_fails initial)
     = Normal [40%float; 40%float; 40%float; 40%float; 0%float].
Proof.
  split; [reflexivity|].
  destruct (measureLatency_measurement (H := stats_spec) every_third_fails initial
              eq_refl) as [-> _].
  vm_compute. reflexivity.
Defined.

(** Trials that fail by rejection.  A run of [n] trials of any transaction,
    measured in any way, whose trials each resolve or reject, returns
    normally with exactly the measurements of the resolved trials in their
    order, at most [n] of them; each rejection is logged and the loop goes
    on; when every trial is rejected the series is empty.
    [measureDownload] is such a run. *)
Lemma trials_skip_failures (w : World) (options : Request)
        (measure : TimedTransaction -> float) (n : nat) (s : State) :
  settled w (length (requests s)) n = true ->
  let outcomes := answers w (length (requests s)) n in
  let series := map measure (fulfilled outcomes) in
  trials (request w options) measure n [] s
  = (Normal series, after_trials w options n s)
  /\ stderr (after_trials w options n s)
     = stderr s ++ map error_line (rejections outcomes)
  /\ requests (after_trials w options n s) = requests s ++ repeat options n
  /\ length series <= n
  /\ (forallb is_rejected outcomes = true -> series = [])
  /\ (forall bytes,
        measureDownload w bytes n s
        = (Normal (map (download_speed_of bytes) (fulfilled outcomes)),
           after_trials w (download_options bytes) n s)).
Proof.
  intros Hs outcomes series. repeat split.
  - now rewrite trials_request.
  - subst series. rewrite length_map.
    etransitivity; [apply length_fulfilled|].
    subst outcomes. now rewrite length_answers.
  - intros Hr. subst series. now rewrite fulfilled_all_rejected.
  - intros bytes. unfold measureDownload, download. now rewrite trials_request.
Qed.

Example trials_every_third_rejected :
  settled every_third_fails (length (requests initial)) 10 = true
  /\ (exists series,
         fst (measureDownload every_third_fails 1001000 10 initial) = Normal series
         /\ length series = 7)
  /\ length (stderr (snd (measureDownload every_third_fails 1001000 10 initial))) = 3.
Proof.
  split; [reflexivity|].
  destruct (trials_skip_failures every_third_fails (download_options 1001000)
              (download_speed_of 1001000) 10 initial eq_refl)
    as (_ & _ & _ & _ & _ & Hd).
  rewrite (Hd 1001000%N). split; [eexists; split; [reflexivity|]|]; reflexivity.
Qed.

(** C5: each resolved download trial records the throughput formula applied
    to the byte count and [ended - ttfb], the transfer time alone; 1,001,000
    bytes first readable at 100 and ended at 600 give 16.016, that is 16.02
    to two decimals. *)
Theorem measureDownload_measurement (w : World) (bytes : N) (n : nat) (s : State) :
  settled w (length (requests s)) n = true ->
  measureDownload w bytes n s
  = (Normal (map (fun r => measureSpeed (of_N bytes) (ended r - ttfb r)%float)
                 (fulfilled (answers w (length (requests s)) n))),
     after_trials w (download_options bytes) n s)
  /\ (forall first dns tcp ssl server,
        download_speed_of 1001000
          {| started := first; dnsLookup := dns; tcpHandshake := tcp;
             sslHandshake := ssl; ttfb := 100; ended := 600;
             serverTiming := server |} = 16.016%float)
  /\ toFixed2 16.016 = "16.02"
  /\ (16.015 <? 16.016)%float && (16.016 <? 16.025)%float = true.
Proof.
  intros Hs. repeat split.
  unfold measureDownload, download. now rewrite trials_request.
Qed.

Lemma measureDownload_measurement_witness :
  settled every_third_fails (length (requests initial)) 1 = true
  /\ fst (measureDownload every_third_fails 1001000 1 initial)
     = Normal [16.016%float].
Proof.
  split; [reflexivity|].
  destruct (measureDownload_measurement every_third_fails 1001000 1 initial eq_refl)
    as [-> _].
  vm_compute. reflexivity.
Defined.

(** C6: each resolved upload trial records the throughput formula applied to
    the byte count and the server-reported [serverTiming]; no clock reading
    of the client enters the measurement. *)
Theorem measureUpload_measurement (w : World) (bytes : N) (n : nat) (s : State) :
  settled w (length (requests s)) n = true ->
  measureUpload w bytes n s
  = (Normal (map (fun r => measureSpeed (of_N bytes) (serverTiming r))
                 (fulfilled (answers w (length (requests s)) n))),
     after_trials w (upload_options bytes) n s)
  /\ (forall r r' : TimedTransaction,
        serverTiming r = serverTiming r' ->
        upload_speed_of bytes r = upload_speed_of bytes r').
Proof.
  intros Hs. split.
  - unfold measureUpload, upload. now rewrite trials_request.
  - intros r r' E. unfold upload_speed_of. now rewrite E.
Qed.

Lemma measureUpload_measurement_witness :
  settled every_third_fails (length (requests initial)) 2 = true
  /\ fst (measureUpload every_third_fails 1001000 2 initial)
     = Normal [measureSpeed 1001000 10; measureSpeed 1001000 10].
Proof.
  split; [reflexivity|].
  destruct (measureUpload_measurement every_third_fails 1001000 2 initial eq_refl)
    as [-> _].
  vm_compute. reflexivity.
Defined.

(** ** The timed-transaction client *)

(** C3, as the code has it: a response that carries a [server-timing]
    header always resolves, with
    [serverTiming = parseFloat(header.slice(22))]; when no number stands at
    that position the value is NaN: no error is raised, the trial is not
    failed and no zero is put in its place. *)
Theorem request_serverTiming (w : World) (options : Request) (s : State)
        (x : Exchange) (header : string) :
  net w (length (requests s)) = NetEnd x ->
  server_timing x = Some header ->
  exists r,
    fst (request w options s) = Normal (Fulfilled r)
    /\ serverTiming r = parseFloat (slice 22 header)
    /\ (no_duration header = true -> serverTiming r = nan).
Proof.
  intros Hn Hh. unfold request. cbn [fst]. rewrite Hn. cbn [settle].
  unfold on_end. rewrite Hh.
  eexists. split; [reflexivity|]. split; [reflexivity|].
  cbn [serverTiming]. unfold no_duration, parseFloat.
  destruct (decimal_prefix (trim_start (slice 22 header)));
    [discriminate | reflexivity].
Qed.

Lemma request_serverTiming_witness :
  let s := {| requests := repeat (download_options 1000) 7; stderr := [];
              stdout := []; flushing := true; results := None |} in
  net one_bad_probe (length (requests s)) = NetEnd exchange_other_metric
  /\ server_timing exchange_other_metric = Some "cache;desc=hit, origin;dur=12.5"
  /\ no_duration "cache;desc=hit, origin;dur=12.5" = true
  /\ exists r,
       fst (request one_bad_probe (download_options 1000) s) = Normal (Fulfilled r)
       /\ serverTiming r = nan.
Proof.
  cbv zeta. split; [reflexivity|]. split; [reflexivity|]. split; [reflexivity|].
  destruct (request_serverTiming one_bad_probe (download_options 1000)
              {| requests := repeat (download_options 1000) 7; stderr := [];
                 stdout := []; flushing := true; results := None |}
              exchange_other_metric "cache;desc=hit, origin;dur=12.5"
              eq_refl eq_refl) as (r & E & _ & N).
  exists r. split; [exact E | exact (N eq_refl)].
Defined.

(** C3 as stated fails: this response has a [server-timing] header without a
    number at offset 22, and the transaction resolves, with NaN. *)
Lemma malformed_header_resolves :
  no_duration "cache;desc=hit, origin;dur=12.5" = true
  /\ (exists r, settle (NetEnd exchange_other_metric) = Fulfilled r
                /\ is_nan (serverTiming r) = true)
  /\ (forall e, settle (NetEnd exchange_other_metric) <> Rejected e).
Proof.
  split; [reflexivity|]. split.
  - eexists. split; reflexivity.
  - intros e. discriminate.
Qed.

(** Splitting a run of trials. *)
Lemma trials_add {A} (call : M (Promise A)) measure n m :
  forall acc s,
    trials call measure (n + m) acc s
    = bind (trials call measure n acc) (fun acc' => trials call measure m acc') s.
Proof.
  induction n as [|n IH]; intros acc s; cbn [Nat.add trials].
  - reflexivity.
  - unfold bind in *. destruct (call s) as [[p|e|] s1]; [|reflexivity..].
    destruct p as [r|e|u|].
    + apply IH.
    + cbn. apply IH.
    + reflexivity.
    + reflexivity.
Qed.

(** An unsettled trial ends the run: nothing is logged, nothing returned. *)
Lemma trials_unsettled {A} (call : M (Promise A)) measure n acc s e s' :
  call s = (Normal (Unsettled e), s') ->
  trials call measure (S n) acc s = (Abrupt e, s').
Proof. intros H. cbn. unfold bind. now rewrite H. Qed.

(** A response without the header ends a run of trials at once: the
    rejection handler is not run, nothing is logged, no series is returned. *)
Lemma trials_header_absent (w : World) options measure n acc s x :
  net w (length (requests s)) = NetEnd x ->
  server_timing x = None ->
  exists s',
    trials (request w options) measure (S n) acc s = (Abrupt slice_of_undefined, s')
    /\ stderr s' = stderr s
    /\ requests s' = requests s ++ [options].
Proof.
  intros Hn Hh. eexists. split; [|split].
  - apply trials_unsettled. unfold request. rewrite Hn. cbn [settle].
    unfold on_end. rewrite Hh. reflexivity.
  - reflexivity.
  - reflexivity.
Qed.

(** C4: the trial runner does not log and skip every failing trial.  A
    trial whose response carries no [server-timing] header fails inside the
    [end] handler of [request], outside the promise: the rejection handler
    of the loop is not run.  Of ten download trials of which every third
    fails in this way, two are measured; at the third the [TypeError]
    escapes, nothing is logged, no series is returned and the seven trials
    left are never run.  When every trial fails in this way the first one
    ends the run. *)
Theorem measureDownload_header_absent :
  measureDownload every_third_headerless 1001000 10 initial
  = (Abrupt slice_of_undefined,
     {| requests := repeat (download_options 1001000) 3; stderr := [];
        stdout := []; flushing := true; results := None |})
  /\ measureDownload headerless 1001000 10 initial
     = (Abrupt slice_of_undefined,
        {| requests := [download_options 1001000]; stderr := [];
           stdout := []; flushing := true; results := None |}).
Proof.
  unfold measureDownload, download. split.
  - rewrite (trials_add _ _ 2 8). erewrite bind_normal by reflexivity.
    erewrite trials_unsettled by reflexivity. reflexivity.
  - erewrite trials_unsettled by reflexivity. reflexivity.
Qed.

(** ** The trace parser *)

Lemma split_cut sep s :
  split sep s = match cut sep s with
                | None => [s]
                | Some (a, rest) => a :: split sep rest
                end.
Proof.
  induction s as [|c r IH]; [reflexivity|].
  cbn. destruct (Ascii.eqb c sep); [reflexivity|].
  rewrite IH. now destruct (cut sep r) as [[a b]|].
Qed.

Lemma cut_none sep s :
  cut sep s = None <-> ~ In sep (list_ascii_of_string s).
Proof.
  induction s as [|c r IH]; cbn; [tauto|].
  destruct (Ascii.eqb_spec c sep) as [->|Hne].
  - split; [discriminate|]. intros H. exfalso. apply H. now left.
  - destruct (cut sep r) as [[a b]|].
    + split; [discriminate|]. intros H. exfalso.
      assert (Hr : ~ In sep (list_ascii_of_string r)) by tauto.
      apply IH in Hr. discriminate.
    + split; [|reflexivity]. intros _ [E|Hin]; [congruence|].
      now apply IH in Hin.
Qed.

Lemma cut_some sep s a b :
  cut sep s = Some (a, b) ->
  s = (a ++ String sep b)%string /\ ~ In sep (list_ascii_of_string a).
Proof.
  revert a. induction s as [|c r IH]; cbn; intros a H; [discriminate|].
  destruct (Ascii.eqb_spec c sep) as [->|Hne].
  - inversion H; subst. cbn. tauto.
  - destruct (cut sep r) as [[a' b']|]; [|discriminate].
    inversion H; subst. destruct (IH a' eq_refl) as [-> Hn].
    cbn. split; [reflexivity|]. intros [E|Hin]; [congruence|tauto].
Qed.

(** What the [map] step of the parser makes of a line. *)
Lemma line_fields line :
  (nth 0 (split "=" line) EmptyString, nth_error (split "=" line) 1)
  = match key_value line with
    | Some (k, v) => (k, Some v)
    | None => (line, None)
    end.
Proof.
  unfold key_value. rewrite split_cut.
  destruct (cut "=" line) as [[k rest]|]; [|reflexivity].
  cbn. rewrite split_cut. now destruct (cut "=" rest) as [[v t]|].
Qed.

Lemma obj_set_lookup (data : gmap string string) k v k' :
  obj_set data k v !! k'
  = if String.eqb k "__proto__" then data !! k'
    else if String.eqb k k' then Some v else data !! k'.
Proof.
  unfold obj_set. destruct (String.eqb k "__proto__"); [reflexivity|].
  destruct (String.eqb_spec k k') as [->|Hne].
  - apply lookup_insert_eq.
  - now apply lookup_insert_ne.
Qed.

Lemma parse_fold lines k : forall data : gmap string string,
  fold_left
    (fun data '(k, v) =>
       match v with
       | None => data
       | Some v => obj_set data k v
       end)
    (map (fun i => (nth 0 (split "=" i) EmptyString, nth_error (split "=" i) 1)) lines)
    data !! k
  = if String.eqb k "__proto__" then data !! k
    else last_value_from k lines (data !! k).
Proof.
  induction lines as [|line lines IH]; intros data.
  - cbn. now destruct (String.eqb k "__proto__").
  - cbn [map fold_left]. pose proof (line_fields line) as E.
    unfold last_value_from in *. cbn [fold_left].
    destruct (key_value line) as [[k' v]|];
      apply pair_equal_spec in E as [E0 E1]; rewrite E1, ?E0; [|apply IH].
    rewrite IH, obj_set_lookup.
    destruct (String.eqb_spec k "__proto__") as [Hk|Hk];
      destruct (String.eqb_spec k' "__proto__") as [Hk'|Hk']; try reflexivity.
    + destruct (String.eqb_spec k' k); [congruence|reflexivity].
    + destruct (String.eqb_spec k' k); [congruence|reflexivity].
Qed.

(** C10, as the code has it: for every text and every key other than
    [__proto__], the parsed object maps the key to the value of the last
    line of the form [key=value] with that key, the value being the text
    between the first and the second [=] of the line; lines without [=]
    contribute nothing; the object never has an entry [__proto__]. *)
Theorem parseCfCdnCgiTrace_entries (text k : string) :
  parseCfCdnCgiTrace text !! k
  = if String.eqb k "__proto__" then None
    else last_value k (split "010" text).
Proof.
  unfold parseCfCdnCgiTrace. cbv zeta. rewrite parse_fold.
  now rewrite lookup_empty.
Qed.

(** C10 as stated fails for the key [__proto__]: the line has the form
    [key=value] and the parsed object has no such entry. *)
Lemma proto_line_dropped :
  key_value "__proto__=x" = Some ("__proto__", "x")
  /\ parseCfCdnCgiTrace "__proto__=x" !! "__proto__" = None
  /\ parseCfCdnCgiTrace "__proto__=x" = ∅.
Proof. repeat split. Qed.

(** ** Two-decimal strings *)

Lemma all_digits_uint (u : Decimal.uint) :
  all_digits (NilEmpty.string_of_uint u) = true.
Proof. induction u; cbn; auto. Qed.

Lemma N_to_string_digits (n : N) :
  exists c r, N_to_string n = String c r
              /\ is_digit c = true /\ all_digits r = true.
Proof.
  unfold N_to_string, NilZero.string_of_uint.
  pose proof (all_digits_uint (N.to_uint n)) as H.
  destruct (N.to_uint n); cbn in *; eauto 10.
Qed.

Lemma append_nil (s : string) : (EmptyString ++ s)%string = s.
Proof. reflexivity. Qed.

Lemma append_cons (c : ascii) (a b : string) :
  (String c a ++ b)%string = String c (a ++ b)%string.
Proof. reflexivity. Qed.

Lemma span_digits_app ds c rest :
  all_digits ds = true -> is_digit c = false ->
  span_digits (ds ++ String c rest) = (ds, String c rest).
Proof.
  induction ds as [|d ds IH]; cbn [all_digits]; intros Hd Hc.
  - rewrite append_nil. cbn [span_digits]. now rewrite Hc.
  - apply andb_true_iff in Hd as [H1 H2].
    rewrite append_cons. cbn [span_digits]. now rewrite H1, IH.
Qed.

Lemma digit_char_digit (d : N) : (d < 10)%N -> is_digit (digit_char d) = true.
Proof.
  intros H. unfold digit_char.
  assert (Hk : N.to_nat d < 10) by lia.
  remember (N.to_nat d) as k eqn:E. clear E H.
  do 10 (destruct k as [|k]; [reflexivity|]). lia.
Qed.

Lemma two_decimals_format (n : N) :
  two_decimal_format (two_decimals n) = true
  /\ unsigned_two_decimal (two_decimals n) = true.
Proof.
  assert (U : unsigned_two_decimal (two_decimals n) = true).
  { unfold unsigned_two_decimal, two_decimals.
    destruct (N_to_string_digits (n / 100)) as (c & r & E & Hc & Hr).
    rewrite span_digits_app;
      [| rewrite E; cbn [all_digits]; now rewrite Hc, Hr | reflexivity].
    rewrite E. cbn [String.eqb negb andb].
    rewrite !digit_char_digit; [reflexivity | |].
    - apply N.mod_lt. discriminate.
    - apply N.Div0.div_lt_upper_bound. apply N.mod_lt. discriminate. }
  split; [|exact U].
  unfold two_decimal_format. revert U. unfold two_decimals.
  destruct (N_to_string_digits (n / 100)) as (c & r & E & Hc & Hr).
  rewrite E, append_cons.
  destruct c as [[] [] [] [] [] [] [] []]; try discriminate Hc; auto.
Qed.

(** [toFixed(2)] of a finite number below [10^21] in magnitude has exactly
    two decimals. *)
Lemma toFixed2_two_decimals (x : float) :
  is_finite x = true -> (1e21 <=? abs x)%float = false ->
  two_decimal_format (toFixed2 x) = true.
Proof.
  unfold is_finite, toFixed2. intros Hf Hb.
  apply negb_true_iff, orb_false_iff in Hf as [-> ->]. rewrite Hb.
  destruct (x <? 0)%float.
  - rewrite append_cons, append_nil. apply two_decimals_format.
  - rewrite append_nil. apply two_decimals_format.
Qed.

(** ** The whole run *)

(** For a name that is not inherited, the lookup sees the own entries
    alone. *)
Lemma get_text_own (data : gmap string string) (k : string) :
  inherited k = false -> get_text data k = show (data !! k).
Proof.
  intros Hk. unfold get_text. destruct (data !! k); [reflexivity|].
  now rewrite Hk.
Qed.

Lemma answers_app w i n m :
  answers w i (n + m) = answers w i n ++ answers w (i + n) m.
Proof. unfold answers. now rewrite seq_app, map_app. Qed.

Lemma settled_app w i n m :
  settled w i (n + m) = settled w i n && settled w (i + n) m.
Proof. unfold settled. now rewrite answers_app, forallb_app. Qed.

Lemma rejections_app {A} (ps qs : list (Promise A)) :
  rejections (ps ++ qs) = rejections ps ++ rejections qs.
Proof.
  induction ps as [|[a|e|u|] ps IH]; cbn; [reflexivity| | | |]; now rewrite ?IH.
Qed.

Lemma trials_at w options measure n rq er out f rs i :
  length rq = i -> settled w i n = true ->
  trials (request w options) measure n []
         {| requests := rq; stderr := er; stdout := out; flushing := f; results := rs |}
  = (Normal (tier w measure i n),
     {| requests := rq ++ repeat options n;
        stderr := er ++ map error_line (rejections (answers w i n));
        stdout := out; flushing := f; results := rs |}).
Proof. intros <- H. now rewrite trials_request. Qed.

Lemma measureLatency_at `{StatsModule} w rq er out f rs i :
  length rq = i -> settled w i 20 = true ->
  measureLatency w
    {| requests := rq; stderr := er; stdout := out; flushing := f; results := rs |}
  = (let m := tier w latency_of i 20 in
     Normal [Math_min m; Math_max m; average m; median m; jitter m],
     {| requests := rq ++ repeat (download_options 1000) 20;
        stderr := er ++ map error_line (rejections (answers w i 20));
        stdout := out; flushing := f; results := rs |}).
Proof.
  intros Hi Hs. unfold measureLatency, download.
  erewrite bind_normal by (apply trials_at; [exact Hi | exact Hs]). reflexivity.
Qed.

Ltac tidy :=
  cbv beta iota delta
      [requests stderr stdout flushing results server_location your_ip latency
       download_speeds upload_speeds l_median l_jitter].

Ltac run_trials k Hk :=
  erewrite bind_normal
    by (apply (trials_at _ _ _ _ _ _ _ _ _ k); [reflexivity | exact Hk]);
  tidy.

Ltac run_step := erewrite bind_normal by reflexivity; tidy.

Ltac finish :=
  rewrite <- !app_assoc;
  cbv beta iota delta
      [app planned_requests json_results header_results console_lines
       testDown1 testDown2 testDown3 testDown4 testDown5 testUp1 testUp2 testUp3
       downloadTests uploadTests pings colo server_location your_ip latency
       download_speeds upload_speeds l_median l_jitter];
  reflexivity.

Lemma stderr_all w :
  map error_line (rejections (answers w 0 20))
  ++ map error_line (rejections (answers w 20 10))
  ++ map error_line (rejections (answers w 30 8))
  ++ map error_line (rejections (answers w 38 6))
  ++ map error_line (rejections (answers w 44 4))
  ++ map error_line (rejections (answers w 48 1))
  ++ map error_line (rejections (answers w 49 10))
  ++ map error_line (rejections (answers w 59 10))
  ++ map error_line (rejections (answers w 69 8))
  = map error_line (rejections (answers w 0 77)).
Proof.
  change 77 with (20 + (10 + (8 + (6 + (4 + (1 + (10 + (10 + 8)))))))).
  rewrite !answers_app, !rejections_app, !map_app. reflexivity.
Qed.

Lemma speedTest_run `{StatsModule} (w : World) :
  settled w 0 77 = true ->
  speedTest w initial = (Normal tt, final_state w).
Proof.
  intros Hs.
  change 77 with (20 + (10 + (8 + (6 + (4 + (1 + (10 + (10 + 8)))))))) in Hs.
  rewrite !settled_app in Hs. cbn [Nat.add] in Hs.
  apply andb_true_iff in Hs as [H0 Hs]. apply andb_true_iff in Hs as [H1 Hs].
  apply andb_true_iff in Hs as [H2 Hs]. apply andb_true_iff in Hs as [H3 Hs].
  apply andb_true_iff in Hs as [H4 Hs]. apply andb_true_iff in Hs as [H5 Hs].
  apply andb_true_iff in Hs as [H6 Hs]. apply andb_true_iff in Hs as [H7 H8].
  unfold speedTest, final_state. rewrite <- stderr_all. fold (json_mode w).
  unfold measureDownload, measureUpload, download, upload, initial.
  erewrite bind_normal
    by (apply measureLatency_at with (i := 0); [reflexivity | exact H0]).
  cbv zeta.
  tidy.
  destruct (json_mode w).
  - do 10 run_step.
    run_trials 20 H1. run_step. run_trials 30 H2. run_step.
    run_trials 38 H3. run_step. run_trials 44 H4. run_step.
    run_trials 48 H5. run_step. run_step.
    run_trials 49 H6. run_trials 59 H7. run_trials 69 H8.
    run_step.
    erewrite bind_normal by reflexivity. unfold console_log. tidy.
    finish.
  - do 10 run_step.
    run_trials 20 H1. run_step. run_trials 30 H2. run_step.
    run_trials 38 H3. run_step. run_trials 44 H4. run_step.
    run_trials 48 H5. run_step. run_step.
    run_trials 49 H6. run_trials 59 H7. run_trials 69 H8.
    run_step. unfold ret.
    finish.
Qed.

(** [args.json] is set exactly when [--json] is among the arguments. *)
Lemma prefix_dashes (arg : string) :
  String.prefix "--" arg = true ->
  arg = String "-" (String "-" (slice 2 arg)).
Proof.
  destruct arg as [|c1 [|c2 r]]; cbn [String.prefix slice]; try discriminate.
  - destruct (Ascii.ascii_dec "-" c1); intros; discriminate.
  - destruct (Ascii.ascii_dec "-" c1) as [<-|]; [|intros; discriminate].
    destruct (Ascii.ascii_dec "-" c2) as [<-|]; [|intros; discriminate].
    reflexivity.
Qed.

Lemma parseArgs_fold (l : list string) : forall acc : gset string,
  "json" ∈ fold_left
    (fun args arg =>
       if String.prefix "--" arg then
         (if String.eqb (slice 2 arg) "__proto__" then args
          else {[slice 2 arg]} ∪ args)
       else args) l acc
  <-> "json" ∈ acc \/ In "--json" l.
Proof.
  induction l as [|a l IH]; intros acc; cbn [fold_left In].
  - tauto.
  - rewrite IH. clear IH.
    destruct (String.prefix "--" a) eqn:P.
    + apply prefix_dashes in P.
      destruct (String.eqb_spec (slice 2 a) "__proto__") as [E|E].
      * assert (a <> "--json") by (rewrite P, E; discriminate).
        intuition congruence.
      * rewrite elem_of_union, elem_of_singleton.
        split.
        -- intros [[Hj|Hj]|Hj]; [right; left; rewrite P, <- Hj; reflexivity
                                 | tauto | tauto].
        -- intros [Hj|[Hj|Hj]]; [tauto | | tauto].
           left. left. rewrite Hj. reflexivity.
    + assert (a <> "--json") by (intros ->; discriminate).
      intuition congruence.
Qed.

Lemma json_mode_argv (w : World) :
  json_mode w = true <-> In "--json" (skipn 2 (argv w)).
Proof.
  unfold json_mode, parseArgs. rewrite bool_decide_eq_true, parseArgs_fold.
  split; [intros [H|H]; [set_solver | exact H] | auto].
Qed.

Lemma rejected_settled {A} (ps : list (Promise A)) :
  forallb is_rejected ps = true -> forallb is_settled ps = true.
Proof.
  induction ps as [|[a|e|u|] ps IH]; cbn; intros H; try discriminate; auto.
Qed.

(** C7: on a transport whose transactions all settle the run completes and
    issues, after the 20 latency probes, exactly the download tiers 101000
    bytes x10, 1001000 x8, 10001000 x6, 25001000 x4, 100001000 x1 (labelled
    100kB, 1MB, 10MB, 25MB, 100MB) and then the upload tiers 11000 bytes x10,
    101000 x10, 1001000 x8, in this order; in each sweep a larger payload
    never gets more trials; the overall download and upload figures are
    [stats.quartile(..., 0.9)] of the tiers' series concatenated in tier
    order, pushed to the report in JSON mode and printed otherwise. *)
Theorem speedTest_tiers `{StatsModule} (w : World) :
  settled w 0 77 = true ->
  let run := speedTest w initial in
  let downloads : list (N * nat) :=
    [(101000%N, 10); (1001000%N, 8); (10001000%N, 6); (25001000%N, 4);
     (100001000%N, 1)] in
  let uploads : list (N * nat) :=
    [(11000%N, 10); (101000%N, 10); (1001000%N, 8)] in
  let down_series :=
    tier w (download_speed_of 101000) 20 10
    ++ tier w (download_speed_of 1001000) 30 8
    ++ tier w (download_speed_of 10001000) 38 6
    ++ tier w (download_speed_of 25001000) 44 4
    ++ tier w (download_speed_of 100001000) 48 1 in
  let up_series :=
    tier w (upload_speed_of 11000) 49 10
    ++ tier w (upload_speed_of 101000) 59 10
    ++ tier w (upload_speed_of 1001000) 69 8 in
  let overall_down := toFixed2 (quartile down_series 0.9) in
  let overall_up := toFixed2 (quartile up_series 0.9) in
  fst run = Normal tt
  /\ requests (snd run)
     = repeat (download_options 1000) 20
       ++ flat_map (fun '(bytes, n) => repeat (download_options bytes) n) downloads
       ++ flat_map (fun '(bytes, n) => repeat (upload_options bytes) n) uploads
  /\ larger_fewer downloads = true
  /\ larger_fewer uploads = true
  /\ (if json_mode w then
        option_map (fun r => (map size (download_speeds r),
                              last (download_speeds r),
                              upload_speeds r))
                   (results (snd run))
        = Some (["100kB"; "1MB"; "10MB"; "25MB"; "100MB"; "overall"],
                Some {| size := "overall"; speed := overall_down |},
                [{| size := "overall"; speed := overall_up |}])
      else
        exists tier_lines,
          stdout (snd run)
          = tier_lines ++ [DownloadLine overall_down; UploadLine overall_up]
          /\ map (fun l => match l with
                           | SpeedLine _ display_size _ => display_size
                           | _ => EmptyString
                           end) (skipn 4 tier_lines)
             = ["100kB"; "1MB"; "10MB"; "25MB"; "100MB"]).
Proof.
  intros Hs. cbv zeta. rewrite (speedTest_run w Hs).
  split; [reflexivity|]. split; [reflexivity|].
  split; [reflexivity|]. split; [reflexivity|].
  cbn [snd fst final_state results stdout].
  destruct (json_mode w).
  - reflexivity.
  - exists (firstn 9 (console_lines w)). split; reflexivity.
Qed.

Lemma speedTest_tiers_witness :
  settled every_third_fails 0 77 = true
  /\ fst (speedTest (stats := stats_spec) every_third_fails initial) = Normal tt
  /\ length (requests (snd (speedTest (stats := stats_spec) every_third_fails
                                      initial))) = 77.
Proof.
  split; [reflexivity|].
  destruct (speedTest_tiers (H := stats_spec) every_third_fails eq_refl)
    as (H1 & H2 & _).
  split; [exact H1|]. rewrite H2. reflexivity.
Defined.

(** C8, as the code has it: in JSON mode the one line printed is the report
    below: string fields [server_location] and [your_ip], an object
    [latency] of five strings, [download_speeds] with one entry per download
    tier and an [overall] entry, [upload_speeds] with the [overall] entry
    alone.  [server_location] is a city text followed by the routing-node
    code in parentheses; the city text is the entry of /locations for that
    code, or [undefined], unless the code is a name inherited from
    [Object.prototype].  Every number in the report is written by
    [toFixed(2)]: with exactly two decimals when the number is finite and
    below 10^21 in magnitude, and as [NaN], [Infinity] or [-Infinity] when
    it is not finite. *)
Theorem json_report `{StatsModule} (w : World) :
  settled w 0 77 = true ->
  In "--json" (skipn 2 (argv w)) ->
  let ping := tier w latency_of 0 20 in
  let d1 := tier w (download_speed_of 101000) 20 10 in
  let d2 := tier w (download_speed_of 1001000) 30 8 in
  let d3 := tier w (download_speed_of 10001000) 38 6 in
  let d4 := tier w (download_speed_of 25001000) 44 4 in
  let d5 := tier w (download_speed_of 100001000) 48 1 in
  let u1 := tier w (upload_speed_of 11000) 49 10 in
  let u2 := tier w (upload_speed_of 101000) 59 10 in
  let u3 := tier w (upload_speed_of 1001000) 69 8 in
  let cf := parseCfCdnCgiTrace (trace w) in
  let entry label x :=
    JObject [("size", JString label); ("speed", JString (toFixed2 x))] in
  (exists city : string,
     (inherited (show (cf !! "colo")) = false ->
      city = show (fetchServerLocationData w !! show (cf !! "colo")))
     /\ stdout (snd (speedTest w initial))
       = [JsonLine
            (JObject
               [("server_location",
                 JString (city ++ " (" ++ show (cf !! "colo") ++ ")"));
                ("your_ip",
                 JString (show (cf !! "ip") ++ " (" ++ show (cf !! "loc") ++ ")"));
                ("latency",
                 JObject [("min", JString (toFixed2 (Math_min ping)));
                          ("max", JString (toFixed2 (Math_max ping)));
                          ("average", JString (toFixed2 (average ping)));
                          ("median", JString (toFixed2 (median ping)));
                          ("jitter", JString (toFixed2 (jitter ping)))]);
                ("download_speeds",
                 JArray [entry "100kB" (median d1);
                         entry "1MB" (median d2);
                         entry "10MB" (median d3);
                         entry "25MB" (median d4);
                         entry "100MB" (median d5);
                         entry "overall" (quartile (d1 ++ d2 ++ d3 ++ d4 ++ d5) 0.9)]);
                ("upload_speeds",
            JArray [entry "overall" (quartile (u1 ++ u2 ++ u3) 0.9)])])])
  /\ (forall x : float,
        is_finite x = true -> (1e21 <=? abs x)%float = false ->
        two_decimal_format (toFixed2 x) = true)
  /\ toFixed2 nan = "NaN"
  /\ toFixed2 infinity = "Infinity"
  /\ toFixed2 neg_infinity = "-Infinity".
Proof.
  intros Hs Hj. cbv zeta. rewrite (speedTest_run w Hs).
  apply json_mode_argv in Hj.
  cbn [snd final_state stdout]. rewrite Hj.
  split; [|split; [exact toFixed2_two_decimals | repeat split]].
  exists (get_text (fetchServerLocationData w)
                   (show (parseCfCdnCgiTrace (trace w) !! "colo"))).
  split; [apply get_text_own | reflexivity].
Qed.

Lemma json_report_witness :
  settled every_third_fails_json 0 77 = true
  /\ In "--json" (skipn 2 (argv every_third_fails_json))
  /\ option_map (json_path ["latency"; "median"])
       (match stdout (snd (speedTest (stats := stats_spec) every_third_fails_json
                                     initial)) with
        | [JsonLine document] => Some document
        | _ => None
        end)
     = Some (Some (JString "40.00")).
Proof.
  split; [reflexivity|]. split; [cbn; auto|].
  destruct (json_report (H := stats_spec) every_third_fails_json eq_refl)
    as [(city & _ & ->) _]; [cbn; auto|].
  vm_compute. reflexivity.
Defined.

(** C8 as stated fails: when the twenty latency probes are rejected the
    report is still printed, and its [latency.min] is [Infinity], which is
    not a number written with two decimals. *)
Lemma json_latency_not_two_decimals :
  fst (speedTest (stats := stats_spec) probes_fail initial) = Normal tt
  /\ option_map (json_path ["latency"; "min"])
       (match stdout (snd (speedTest (stats := stats_spec) probes_fail initial)) with
        | [JsonLine document] => Some document
        | _ => None
        end)
     = Some (Some (JString "Infinity"))
  /\ two_decimal_format "Infinity" = false.
Proof. repeat split; vm_compute; reflexivity. Qed.

(** Whatever the statistics functions are, twenty rejected probes leave
    [measureLatency] with the empty series: it returns
    [Math.min()] = Infinity, [Math.max()] = -Infinity and the three
    statistics of the empty series. *)
Lemma measureLatency_no_success `{StatsModule} (w : World) :
  forallb is_rejected (answers w 0 20) = true ->
  measureLatency w initial
  = (Normal [infinity; neg_infinity; average []; median []; jitter []],
     after_trials w (download_options 1000) 20 initial).
Proof.
  intros Hr. unfold initial.
  rewrite (measureLatency_at w [] [] [] true None 0 eq_refl
             (rejected_settled _ Hr)).
  unfold tier. rewrite (fulfilled_all_rejected _ Hr). reflexivity.
Qed.

(** C9: when the twenty latency probes fail because their responses carry
    no [server-timing] header, [measureLatency] returns nothing.  The [end]
    handler of the first probe throws outside the promise; the [TypeError]
    ends the run, the nineteen probes left and every download and upload
    tier are never issued and nothing is logged or printed, whatever the
    statistics module. *)
Theorem measureLatency_header_absent `{StatsModule} :
  let stopped :=
    {| requests := [download_options 1000]; stderr := []; stdout := [];
       flushing := true; results := None |} in
  (forall i, is_fulfilled (settle (net headerless i)) = false)
  /\ measureLatency headerless initial = (Abrupt slice_of_undefined, stopped)
  /\ speedTest headerless initial = (Abrupt slice_of_undefined, stopped).
Proof.
  cbv zeta.
  assert (L : measureLatency headerless initial
              = (Abrupt slice_of_undefined,
                 {| requests := [download_options 1000]; stderr := [];
                    stdout := []; flushing := true; results := None |})).
  { unfold measureLatency, download.
    erewrite bind_abrupt; [reflexivity|].
    erewrite trials_unsettled by reflexivity. reflexivity. }
  split; [intros i; reflexivity|]. split; [exact L|].
  unfold speedTest. erewrite bind_abrupt by exact L. reflexivity.
Qed.

(** ** The order of the plan, whatever the transport does *)

Lemma issues_pure {A} (m : M A) :
  (forall s, requests (snd (m s)) = requests s) -> issues m [].
Proof.
  intros H s. exists []. rewrite H, app_nil_r.
  split; [reflexivity|]. split; [reflexivity | intros; reflexivity].
Qed.

Lemma issues_bind {A B} (m : M A) (k : A -> M B) L1 L2 :
  issues m L1 -> (forall a, issues (k a) L2) -> issues (bind m k) (L1 ++ L2).
Proof.
  intros Hm Hk s. destruct (Hm s) as (L' & E & P & F).
  unfold bind. destruct (m s) as [[a|e|] s'] eqn:Em; cbn [fst snd] in *.
  - specialize (F a eq_refl). subst L'.
    destruct (Hk a s') as (L'' & E' & P' & F').
    exists (L1 ++ L''). rewrite E', E, app_assoc. split; [reflexivity|]. split.
    + now apply prefix_app.
    + intros b Hb. now rewrite (F' b Hb).
  - exists L'. split; [exact E|]. split.
    + now apply prefix_app_r.
    + discriminate.
  - exists L'. split; [exact E|]. split.
    + now apply prefix_app_r.
    + discriminate.
Qed.

Lemma issues_quiet {A B} (m : M A) (k : A -> M B) L :
  issues m [] -> (forall a, issues (k a) L) -> issues (bind m k) L.
Proof. intros. now apply (issues_bind m k [] L). Qed.

Lemma issues_request w options : issues (request w options) [options].
Proof.
  intros s. exists [options].
  split; [reflexivity|]. split; [reflexivity | intros; reflexivity].
Qed.

Lemma issues_trials w options (measure : TimedTransaction -> float) n :
  forall acc, issues (trials (request w options) measure n acc) (repeat options n).
Proof.
  induction n as [|n IH]; intros acc; cbn [trials repeat].
  - now apply issues_pure.
  - change (options :: repeat options n) with ([options] ++ repeat options n).
    apply issues_bind; [apply issues_request|].
    intros [r|e|u|].
    + apply IH.
    + apply issues_quiet; [now apply issues_pure | intros; apply IH].
    + intros s. exists []. rewrite app_nil_r.
      split; [reflexivity|]. split; [apply prefix_nil | discriminate].
    + intros s. exists []. rewrite app_nil_r.
      split; [reflexivity|]. split; [apply prefix_nil | discriminate].
Qed.

Ltac quiet := apply issues_quiet; [now apply issues_pure | intros].
Ltac loud := apply issues_bind; [apply issues_trials | intros].

Lemma issues_log_flushing {A} (m1 m2 : M A) :
  issues m1 [] -> issues m2 [] ->
  issues (f <- get_flushing ;; if f then m1 else m2) [].
Proof.
  intros H1 H2. quiet. now destruct a.
Qed.

Lemma issues_logSpeedTestResult `{StatsModule} size test :
  issues (logSpeedTestResult size test) [].
Proof.
  unfold logSpeedTestResult. apply issues_log_flushing.
  - destruct (repeat_space _); now apply issues_pure.
  - apply issues_pure. intros s. unfold push_download, bind, get_results.
    now destruct (results s).
Qed.

Lemma issues_logInfo text data : issues (logInfo text data) [].
Proof.
  unfold logInfo. apply issues_log_flushing.
  - destruct (repeat_space _); now apply issues_pure.
  - now apply issues_pure.
Qed.

Lemma issues_speedTest `{StatsModule} (w : World) :
  issues (speedTest w) planned_requests.
Proof.
  unfold speedTest, planned_requests, measureLatency, measureDownload,
    measureUpload, download, upload.
  apply issues_bind; [|intros ping].
  { rewrite <- (app_nil_r (repeat _ 20)). loud. now apply issues_pure. }
  quiet.
  do 5 (apply issues_quiet;
        [unfold toFixed_at; destruct (nth_error _ _); now apply issues_pure
        | intros]).
  quiet.
  apply issues_quiet; [apply issues_logInfo|intros].
  apply issues_quiet; [apply issues_logInfo|intros].
  apply issues_quiet.
  { unfold logLatency. apply issues_log_flushing; [|now apply issues_pure].
    quiet. now apply issues_pure. }
  intros.
  loud. apply issues_quiet; [apply issues_logSpeedTestResult|intros].
  loud. apply issues_quiet; [apply issues_logSpeedTestResult|intros].
  loud. apply issues_quiet; [apply issues_logSpeedTestResult|intros].
  loud. apply issues_quiet; [apply issues_logSpeedTestResult|intros].
  loud. apply issues_quiet; [apply issues_logSpeedTestResult|intros].
  apply issues_quiet.
  { unfold logDownloadSpeed. apply issues_log_flushing; [now apply issues_pure|].
    apply issues_pure. intros s. unfold push_download, bind, get_results.
    now destruct (results s). }
  intros. loud. loud.
  rewrite <- (app_nil_r (repeat _ 8)). loud.
  apply issues_quiet.
  { unfold logUploadSpeed. apply issues_log_flushing; [now apply issues_pure|].
    apply issues_pure. intros s. unfold push_upload, bind, get_results.
    now destruct (results s). }
  intros. destruct (bool_decide _); [|now apply issues_pure].
  apply issues_pure. intros s. unfold bind, get_results.
  now destruct (results s).
Qed.

(** Whatever the transport does, the transactions a run has issued are the
    plan, or the plan up to the point where the run ended. *)
Lemma speedTest_follows_plan `{StatsModule} (w : World) :
  requests (snd (speedTest w initial)) `prefix_of` planned_requests.
Proof.
  destruct (issues_speedTest w initial) as (L & E & P & _).
  now rewrite E.
Qed.

(** * Further properties *)

Lemma is_nan_Prim2SF (x : float) : Prim2SF x = S754_nan -> is_nan x = true.
Proof.
  intros H. unfold is_nan. rewrite FloatAxioms.eqb_spec, H. reflexivity.
Qed.

Lemma not_finite_Prim2SF (x : float) :
  (Prim2SF x = S754_nan \/ exists s, Prim2SF x = S754_infinity s) ->
  is_finite x = false.
Proof.
  intros [H|[s H]]; unfold is_finite.
  - now rewrite (is_nan_Prim2SF x H).
  - unfold is_infinity. rewrite FloatAxioms.eqb_spec, abs_spec, H.
    cbn. now rewrite orb_true_r.
Qed.

Lemma sub_self_degenerate (t : float) :
  Prim2SF (t - t) = S754_nan \/ exists s, Prim2SF (t - t) = S754_zero s.
Proof.
  rewrite sub_spec. destruct (Prim2SF t) as [s|s| |s m e]; cbn.
  - right. destruct s; eauto.
  - left. now destruct s.
  - now left.
  - right. unfold SF64sub, SFsub, SFadd. cbn.
    rewrite Z.min_id. unfold shl_align. rewrite Z.sub_diag.
    destruct s; cbn; rewrite ?Z.add_opp_diag_r, ?Z.add_opp_diag_l; cbn; eauto.
Qed.

Lemma degenerate_duration (y z : float) :
  (Prim2SF z = S754_nan \/ exists s, Prim2SF z = S754_zero s) ->
  is_finite (y / (z / 1000) / 1e6) = false.
Proof.
  intros Hz. apply not_finite_Prim2SF. rewrite !div_spec.
  change (Prim2SF 1e6) with (S754_finite false 8589934592000000 (-33)).
  change (Prim2SF 1000) with (S754_finite false 8796093022208000 (-43)).
  destruct Hz as [-> | [s ->]]; destruct (Prim2SF y) as [s'|s'| |s' m e];
    cbn; eauto.
Qed.

(** X5: [measureSpeed] has no guard for a degenerate duration: whatever the
    byte count, a download whose [end] carries the clock reading of its
    first byte, and an upload whose server reports 0 ms, record a
    measurement that is not a finite number (Infinity, -Infinity or NaN). *)
Theorem degenerate_duration_not_finite (bytes : N) (t first server : float)
        (dns tcp ssl : option float) :
  is_finite (download_speed_of bytes
               {| started := first; dnsLookup := dns; tcpHandshake := tcp;
                  sslHandshake := ssl; ttfb := t; ended := t;
                  serverTiming := server |}) = false
  /\ is_finite (upload_speed_of bytes
                  {| started := first; dnsLookup := dns; tcpHandshake := tcp;
                     sslHandshake := ssl; ttfb := t; ended := t;
                     serverTiming := 0 |}) = false
  /\ is_finite (measureSpeed (of_N bytes) 0) = false.
Proof.
  unfold download_speed_of, upload_speed_of, measureSpeed. cbn [ttfb ended serverTiming].
  split; [|split].
  - apply degenerate_duration, sub_self_degenerate.
  - apply degenerate_duration. right. now exists false.
  - apply degenerate_duration. right. now exists false.
Qed.

(** NaN poisoning *)
Lemma sub_nan (x : float) : is_nan (x - nan) = true.
Proof.
  apply is_nan_Prim2SF. rewrite sub_spec.
  change (Prim2SF nan) with S754_nan.
  now destruct (Prim2SF x) as [s|s| |s m e].
Qed.

Lemma min_step_nan_l x : min_step nan x = nan.
Proof. reflexivity. Qed.

Lemma max_step_nan_l x : max_step nan x = nan.
Proof. reflexivity. Qed.

Lemma fold_min_nan xs : fold_left min_step xs nan = nan.
Proof.
  induction xs as [|x xs IH]; cbn [fold_left]; [reflexivity|].
  now rewrite min_step_nan_l.
Qed.

Lemma fold_max_nan xs : fold_left max_step xs nan = nan.
Proof.
  induction xs as [|x xs IH]; cbn [fold_left]; [reflexivity|].
  now rewrite max_step_nan_l.
Qed.

Lemma Math_min_max_nan (xs : list float) :
  existsb is_nan xs = true -> Math_min xs = nan /\ Math_max xs = nan.
Proof.
  unfold Math_min, Math_max. generalize infinity, neg_infinity.
  induction xs as [|x xs IH]; intros lo hi H; [discriminate|].
  cbn in H. cbn [fold_left]. apply orb_true_iff in H as [H|H].
  - unfold min_step, max_step. rewrite H, !orb_true_r.
    now rewrite fold_min_nan, fold_max_nan.
  - now apply IH.
Qed.

Lemma no_duration_nan (header : string) :
  no_duration header = true -> parseFloat (slice 22 header) = nan.
Proof.
  unfold no_duration, parseFloat.
  now destruct (decimal_prefix (trim_start (slice 22 header))).
Qed.

Lemma in_fulfilled {A} (a : A) (ps : list (Promise A)) :
  In (Fulfilled a) ps -> In a (fulfilled ps).
Proof.
  induction ps as [|[b|e|u|] ps IH]; cbn; intros H; try tauto.
  - destruct H as [H|H]; [left; congruence | right; auto].
  - destruct H as [H|H]; [discriminate | auto].
  - destruct H as [H|H]; [discriminate | auto].
  - destruct H as [H|H]; [discriminate | auto].
Qed.

Lemma existsb_in {A} (f : A -> bool) (a : A) l :
  In a l -> f a = true -> existsb f l = true.
Proof. intros Hi Hf. apply existsb_exists. eauto. Qed.

(** X8: one latency probe whose [server-timing] header has no number at
    offset 22 is enough to turn the minimum and the maximum latency into
    NaN: the probe resolves, its measurement is NaN and [Math.min],
    [Math.max] return NaN as soon as one argument is. *)
Theorem nan_probe_poisons_latency `{StatsModule} (w : World) (j : nat)
        (x : Exchange) (header : string) :
  settled w 0 20 = true ->
  j < 20 ->
  net w j = NetEnd x ->
  server_timing x = Some header ->
  no_duration header = true ->
  exists a m d, fst (measureLatency w initial) = Normal [nan; nan; a; m; d].
Proof.
  intros Hs Hj Hn Hh Hd.
  unfold initial.
  rewrite (measureLatency_at w [] [] [] true None 0 eq_refl Hs).
  cbn [fst]. cbv zeta.
  assert (E : existsb is_nan (tier w latency_of 0 20) = true).
  { set (r := {| started := at_start x; dnsLookup := at_lookup x;
                 tcpHandshake := at_connect x;
                 sslHandshake := at_secureConnect x; ttfb := at_readable x;
                 ended := at_end x; serverTiming := nan |}).
    apply (existsb_in _ (latency_of r)).
    - unfold tier. apply in_map, in_fulfilled.
      unfold answers. apply in_map_iff. exists j. split.
      + rewrite Hn. cbn [settle]. unfold on_end. rewrite Hh.
        now rewrite (no_duration_nan _ Hd).
      + apply in_seq. lia.
    - unfold latency_of, r. cbn [ttfb started serverTiming]. apply sub_nan. }
  destruct (Math_min_max_nan _ E) as [-> ->]. eauto.
Qed.

Lemma nan_probe_poisons_latency_witness :
  settled one_bad_probe 0 20 = true
  /\ 7 < 20
  /\ net one_bad_probe 7 = NetEnd exchange_other_metric
  /\ no_duration "cache;desc=hit, origin;dur=12.5" = true
  /\ exists a m d,
       fst (measureLatency (stats := stats_spec) one_bad_probe initial)
       = Normal [nan; nan; a; m; d].
Proof.
  split; [reflexivity|]. split; [lia|]. split; [reflexivity|].
  split; [reflexivity|].
  apply (nan_probe_poisons_latency (H := stats_spec) one_bad_probe 7
           exchange_other_metric "cache;desc=hit, origin;dur=12.5");
    [reflexivity | lia | reflexivity | reflexivity | reflexivity].
Defined.

(** X6: a run of trials ends at the first transaction that comes back
    without usable promise state (the [end] handler threw): the transactions
    before it were issued and their rejections logged, the one that threw is
    the last one issued, the measurements collected so far are lost and the
    remaining trials never run. *)
Theorem trials_stop_at_unsettled (w : World) (options : Request)
        (measure : TimedTransaction -> float) (n j : nat)
        (acc : list float) (s : State) (e : string) :
  j < n ->
  settled w (length (requests s)) j = true ->
  settle (net w (length (requests s) + j)) = Unsettled e ->
  trials (request w options) measure n acc s
  = (Abrupt e,
     {| requests := requests s ++ repeat options (S j);
        stderr := stderr s
                  ++ map error_line (rejections (answers w (length (requests s)) j));
        stdout := stdout s;
        flushing := flushing s;
        results := results s |}).
Proof.
  intros Hj Hs Hu.
  replace n with (j + S (n - S j)) by lia.
  rewrite trials_add.
  erewrite bind_normal by (apply trials_request; exact Hs).
  erewrite trials_unsettled.
  2:{ unfold request, after_trials. cbn [requests].
      rewrite length_app, repeat_length, Hu. reflexivity. }
  unfold after_trials. cbn [requests stderr stdout flushing results].
  rewrite <- app_assoc.
  change (repeat options (S j)) with (options :: repeat options j).
  rewrite (repeat_cons j options). reflexivity.
Qed.

Lemma trials_stop_at_unsettled_witness :
  2 < 10
  /\ settled header_missing_at_2 (length (requests initial)) 2 = true
  /\ measureDownload header_missing_at_2 1001000 10 initial
     = (Abrupt slice_of_undefined,
        {| requests := repeat (download_options 1001000) 3;
           stderr := ["Error: Error: read ECONNRESET"];
           stdout := []; flushing := true; results := None |}).
Proof.
  split; [lia|]. split; [reflexivity|].
  unfold measureDownload, download.
  rewrite (trials_stop_at_unsettled header_missing_at_2 _ _ 10 2 [] initial
             slice_of_undefined); [reflexivity | lia | reflexivity | reflexivity].
Defined.

(** A trial whose promise stays pending suspends the run. *)
Lemma trials_pending {A} (call : M (Promise A)) measure n acc s s' :
  call s = (Normal Pending, s') ->
  trials call measure (S n) acc s = (Suspended, s').
Proof. intros H. cbn. unfold bind. now rewrite H. Qed.

(** X19: [request] sets no timeout.  A run of trials stays suspended at the
    first transaction that stalls (nothing is emitted on it any more):
    the transactions before it were issued and their rejections logged, the
    silent one is the last one issued, no series is returned, nothing is
    thrown and the trials left never run. *)
Theorem trials_suspend_at_silence (w : World) (options : Request)
        (measure : TimedTransaction -> float) (n j : nat)
        (acc : list float) (s : State) :
  j < n ->
  settled w (length (requests s)) j = true ->
  net w (length (requests s) + j) = NetSilence ->
  trials (request w options) measure n acc s
  = (Suspended,
     {| requests := requests s ++ repeat options (S j);
        stderr := stderr s
                  ++ map error_line (rejections (answers w (length (requests s)) j));
        stdout := stdout s;
        flushing := flushing s;
        results := results s |}).
Proof.
  intros Hj Hs Hu.
  replace n with (j + S (n - S j)) by lia.
  rewrite trials_add.
  erewrite bind_normal by (apply trials_request; exact Hs).
  erewrite trials_pending.
  2:{ unfold request, after_trials. cbn [requests].
      rewrite length_app, repeat_length, Hu. reflexivity. }
  unfold after_trials. cbn [requests stderr stdout flushing results].
  rewrite <- app_assoc.
  change (repeat options (S j)) with (options :: repeat options j).
  rewrite (repeat_cons j options). reflexivity.
Qed.

Lemma trials_suspend_at_silence_witness :
  2 < 10
  /\ settled silence_at_2 (length (requests initial)) 2 = true
  /\ net silence_at_2 (length (requests initial) + 2) = NetSilence
  /\ measureUpload silence_at_2 11000 10 initial
     = (Suspended,
        {| requests := repeat (upload_options 11000) 3;
           stderr := ["Error: Error: read ECONNRESET"];
           stdout := []; flushing := true; results := None |}).
Proof.
  split; [lia|]. split; [reflexivity|]. split; [reflexivity|].
  unfold measureUpload, upload.
  rewrite (trials_suspend_at_silence silence_at_2 _ _ 10 2 [] initial);
    [reflexivity | lia | reflexivity | reflexivity].
Defined.

Lemma fulfilled_all {A} (ps : list (Promise A)) :
  forallb is_fulfilled ps = true ->
  length (fulfilled ps) = length ps /\ rejections ps = []
  /\ forallb is_settled ps = true.
Proof.
  induction ps as [|[a|e|u|] ps IH]; cbn; intros H; try discriminate; auto.
  destruct (IH H) as (-> & -> & ->). auto.
Qed.

(** X7: when every one of the [iterations] transactions resolves,
    [measureDownload] and [measureUpload] return exactly [iterations]
    measurements and write nothing to the error console. *)
Theorem all_resolved_full_series (w : World) (bytes : N) (iterations : nat) (s : State) :
  forallb is_fulfilled (answers w (length (requests s)) iterations) = true ->
  (exists series,
      fst (measureDownload w bytes iterations s) = Normal series
      /\ length series = iterations)
  /\ stderr (snd (measureDownload w bytes iterations s)) = stderr s
  /\ (exists series,
        fst (measureUpload w bytes iterations s) = Normal series
        /\ length series = iterations)
  /\ stderr (snd (measureUpload w bytes iterations s)) = stderr s.
Proof.
  intros H. destruct (fulfilled_all _ H) as (Hl & Hr & Hs).
  unfold measureDownload, measureUpload, download, upload.
  rewrite !trials_request by exact Hs.
  unfold tier, after_trials. cbn [fst snd stderr].
  rewrite Hr. cbn [map]. rewrite app_nil_r.
  split; [|split; [|split]]; try reflexivity;
    eexists; (split; [reflexivity|]); cbn [app];
    now rewrite length_map, Hl, length_answers.
Qed.

Lemma all_resolved_full_series_witness :
  forallb is_fulfilled (answers always_answers (length (requests initial)) 2) = true
  /\ (exists series,
        fst (measureDownload always_answers 1000 2 initial) = Normal series
        /\ length series = 2%nat).
Proof.
  split; [reflexivity|].
  exact (proj1 (all_resolved_full_series always_answers 1000 2 initial eq_refl)).
Defined.

(** X1: [parseArgs] sets exactly the names of the [--name] arguments that
    follow the first two arguments; other arguments are ignored, and no
    argument sets [__proto__]. *)
Theorem parseArgs_flags (w : World) (name : string) :
  name ∈ parseArgs w
  <-> name <> "__proto__" /\ In (String "-" (String "-" name)) (skipn 2 (argv w)).
Proof.
  unfold parseArgs.
  assert (G : forall (l : list string) (acc : gset string),
             name ∈ fold_left
               (fun args arg =>
                  if String.prefix "--" arg then
                    (if String.eqb (slice 2 arg) "__proto__" then args
                     else {[slice 2 arg]} ∪ args)
                  else args) l acc
             <-> name ∈ acc
                 \/ (name <> "__proto__" /\ In (String "-" (String "-" name)) l)).
  { induction l as [|a l IH]; intros acc; cbn [fold_left In].
    - tauto.
    - rewrite IH. clear IH.
      destruct (String.prefix "--" a) eqn:P.
      + apply prefix_dashes in P.
        destruct (String.eqb_spec (slice 2 a) "__proto__") as [E|E].
        * split; [tauto|]. intros [Hn|[Hn [Ha|Ha]]]; [tauto| |tauto].
          exfalso. apply Hn. rewrite P in Ha. injection Ha as <-. exact E.
        * rewrite elem_of_union, elem_of_singleton. split.
          -- intros [[Hj|Hj]|Hj]; [|tauto|tauto].
             right. subst name. split; [exact E|]. left. exact P.
          -- intros [Hj|[Hn [Ha|Ha]]]; [tauto| |tauto].
             left. left. rewrite P in Ha. now injection Ha.
      + split; [tauto|]. intros [Hn|[Hn [Ha|Ha]]]; [tauto| |tauto].
        rewrite Ha in P. destruct name; cbn in P; discriminate. }
  rewrite G. split; [intros [H|H]; [set_solver|exact H] | auto].
Qed.

Lemma locations_fold (records : list (string * string)) (k : string) :
  forall data : gmap string string,
    fold_left (fun data '(iata, city) => obj_set data iata city) records data !! k
    = if String.eqb k "__proto__" then data !! k
      else last_city_from k records (data !! k).
Proof.
  unfold last_city_from.
  induction records as [|[iata city] records IH]; intros data; cbn [fold_left].
  - now destruct (String.eqb k "__proto__").
  - rewrite IH, obj_set_lookup.
    destruct (String.eqb_spec k "__proto__") as [Hk|Hk];
      destruct (String.eqb_spec iata "__proto__") as [Hi|Hi]; try reflexivity.
    + destruct (String.eqb_spec iata k); [congruence|reflexivity].
    + destruct (String.eqb_spec iata k); [congruence|reflexivity].
Qed.

(** X2: the object built by [fetchServerLocationData] maps a code to the city
    of the last record carrying that code; a code no record carries, and the
    code [__proto__], have no entry. *)
Theorem fetchServerLocationData_lookup (w : World) (k : string) :
  fetchServerLocationData w !! k
  = (if String.eqb k "__proto__" then None
     else last_city_from k (locations w) None)
  /\ (forallb (fun r => negb (String.eqb (fst r) k)) (locations w) = true ->
      fetchServerLocationData w !! k = None).
Proof.
  unfold fetchServerLocationData. rewrite locations_fold, lookup_empty.
  split; [reflexivity|]. intros H.
  destruct (String.eqb k "__proto__"); [reflexivity|].
  unfold last_city_from. revert H. generalize (locations w).
  induction l as [|[iata city] l IH]; cbn; [reflexivity|].
  intros H. apply andb_true_iff in H as [H1 H2].
  apply negb_true_iff in H1. rewrite H1. now apply IH.
Qed.

Lemma lacks_app c a b : lacks c (a ++ b) = lacks c a && lacks c b.
Proof.
  induction a as [|d a IH]; [reflexivity|].
  rewrite append_cons. cbn [lacks]. now rewrite IH, andb_assoc.
Qed.

Lemma cut_lacks c s : lacks c s = true -> cut c s = None.
Proof.
  induction s as [|d r IH]; cbn [lacks cut]; [reflexivity|].
  intros H. apply andb_true_iff in H as [H1 H2].
  apply negb_true_iff in H1. now rewrite H1, IH.
Qed.

Lemma cut_app c a b : lacks c a = true -> cut c (a ++ String c b) = Some (a, b).
Proof.
  induction a as [|d a IH]; cbn [lacks]; intros H.
  - rewrite append_nil. cbn [cut]. now rewrite Ascii.eqb_refl.
  - apply andb_true_iff in H as [H1 H2]. apply negb_true_iff in H1.
    rewrite append_cons. cbn [cut]. now rewrite H1, IH.
Qed.

Lemma key_value_line k v :
  lacks "=" k = true -> lacks "=" v = true ->
  key_value (k ++ String "=" v) = Some (k, v).
Proof.
  intros Hk Hv. unfold key_value. now rewrite cut_app, cut_lacks.
Qed.

Lemma split_lines_body entries :
  forallb plain_entry entries = true ->
  split "010" (trace_body entries)
  = map (fun e : string * string => (fst e ++ String "=" (snd e))%string) entries
    ++ [EmptyString].
Proof.
  induction entries as [|[k v] rest IH]; cbn [forallb trace_body map app];
    [reflexivity|].
  intros H. apply andb_true_iff in H as [H Hr].
  unfold plain_entry in H. cbn [fst snd] in *.
  repeat (apply andb_true_iff in H as [H ?]).
  rewrite split_cut.
  replace (k ++ String "=" (v ++ String "010" (trace_body rest)))%string
    with ((k ++ String "=" v) ++ String "010" (trace_body rest))%string.
  2:{ clear. induction k as [|c k IH]; [reflexivity|].
      rewrite !append_cons. now rewrite IH. }
  rewrite cut_app.
  - now rewrite IH.
  - rewrite lacks_app. cbn [lacks].
    apply andb_true_iff; split; [assumption|].
    apply andb_true_iff; split; [reflexivity | assumption].
Qed.

Lemma last_value_entries (k : string) (entries : list (string * string)) :
  forallb plain_entry entries = true ->
  forall found,
    last_value_from k
      (map (fun e : string * string => (fst e ++ String "=" (snd e))%string) entries
       ++ [EmptyString]) found
    = last_entry_from k entries found.
Proof.
  unfold last_value_from, last_entry_from.
  induction entries as [|[k' v] rest IH]; cbn [forallb map app fold_left];
    [reflexivity|].
  intros H found. apply andb_true_iff in H as [H Hr].
  unfold plain_entry in H. cbn [fst snd] in *.
  repeat (apply andb_true_iff in H as [H ?]).
  rewrite key_value_line by assumption. now apply IH.
Qed.

(** X3: the trace parser reads back what a well-formed body says: for
    entries whose keys and values contain no [=] and no line feed and whose
    key is not [__proto__], parsing the body made of their [key=value] lines
    gives, for every key, the value of the last entry with that key. *)
Theorem parseCfCdnCgiTrace_round_trip (entries : list (string * string)) (k : string) :
  forallb plain_entry entries = true ->
  parseCfCdnCgiTrace (trace_body entries) !! k
  = if String.eqb k "__proto__" then None else last_entry_from k entries None.
Proof.
  intros H. unfold parseCfCdnCgiTrace. cbv zeta.
  rewrite parse_fold, lookup_empty. unfold last_value.
  destruct (String.eqb k "__proto__"); [reflexivity|].
  rewrite split_lines_body by exact H. now apply last_value_entries.
Qed.

Lemma parseCfCdnCgiTrace_round_trip_witness :
  forallb plain_entry
    [("ip", "192.168.1.1"); ("loc", "US"); ("colo", "IAD");
     ("ts", "1234567890.123"); ("loc", "DE")] = true
  /\ parseCfCdnCgiTrace
       (trace_body [("ip", "192.168.1.1"); ("loc", "US"); ("colo", "IAD");
                    ("ts", "1234567890.123"); ("loc", "DE")]) !! "loc"
     = Some "DE".
Proof.
  split; [reflexivity|].
  rewrite (parseCfCdnCgiTrace_round_trip
             [("ip", "192.168.1.1"); ("loc", "US"); ("colo", "IAD");
              ("ts", "1234567890.123"); ("loc", "DE")] "loc" eq_refl).
  reflexivity.
Defined.

Lemma keeps_silent {A} (m : M A) : keeps_console m -> silent m.
Proof. intros H s Hf. destruct (H s) as [H1 H2]. split; congruence. Qed.

Lemma keeps_bind {A B} (m : M A) (k : A -> M B) :
  keeps_console m -> (forall a, keeps_console (k a)) -> keeps_console (bind m k).
Proof.
  intros Hm Hk s. specialize (Hm s). unfold bind.
  destruct (m s) as [[a|e|] s']; cbn [snd] in *; [|exact Hm..].
  destruct (Hk a s') as [H1 H2]. destruct Hm. split; congruence.
Qed.

Lemma silent_bind {A B} (m : M A) (k : A -> M B) :
  silent m -> (forall a, silent (k a)) -> silent (bind m k).
Proof.
  intros Hm Hk s Hf. specialize (Hm s Hf). unfold bind.
  destruct (m s) as [[a|e|] s']; cbn [snd] in *; [|exact Hm..].
  destruct Hm as [H1 H2]. destruct (Hk a s' H2) as [H3 H4]. split; congruence.
Qed.

Lemma keeps_trials w options measure n :
  forall acc, keeps_console (trials (request w options) measure n acc).
Proof.
  induction n as [|n IH]; intros acc; cbn [trials].
  - intros s. now split.
  - apply keeps_bind; [intros s; now split|].
    intros [r|e|u|]; [apply IH | | intros s; now split..].
    apply keeps_bind; [intros s; now split | intros; apply IH].
Qed.

Lemma dq_bind {A B} (m : M A) (k : A -> M B) :
  silent m -> (forall a, document_or_nothing_quiet (k a)) ->
  document_or_nothing_quiet (bind m k).
Proof.
  intros Hm Hk s Hs Hf. destruct (Hm s Hf) as [H1 H2]. unfold bind.
  destruct (m s) as [[a|e|] s'] eqn:E; cbn [fst snd] in *.
  - apply Hk; congruence.
  - congruence.
  - congruence.
Qed.

Lemma d_bind {A B} (m : M A) (k : A -> M B) :
  keeps_console m -> (forall a, document_or_nothing (k a)) ->
  document_or_nothing (bind m k).
Proof.
  intros Hm Hk s Hs. destruct (Hm s) as [H1 H2]. unfold bind.
  destruct (m s) as [[a|e|] s'] eqn:E; cbn [fst snd] in *.
  - apply Hk; congruence.
  - congruence.
  - congruence.
Qed.

Lemma d_set_flushing {B} (k : unit -> M B) :
  (forall a, document_or_nothing_quiet (k a)) ->
  document_or_nothing (bind (set_flushing false) k).
Proof.
  intros Hk s Hs. unfold bind, set_flushing. now apply Hk.
Qed.

Lemma silent_log {A} (m1 m2 : M A) :
  silent m2 -> silent (f <- get_flushing ;; if f then m1 else m2).
Proof.
  intros H2 s Hf. unfold bind, get_flushing. rewrite Hf. now apply H2.
Qed.

Lemma silent_push_download e : silent (push_download e).
Proof.
  intros s Hf. unfold push_download, bind, get_results.
  destruct (results s); cbn; auto.
Qed.

Lemma silent_push_upload e : silent (push_upload e).
Proof.
  intros s Hf. unfold push_upload, bind, get_results.
  destruct (results s); cbn; auto.
Qed.

Ltac hush :=
  first
    [ apply keeps_silent, keeps_trials
    | apply silent_log; first [apply silent_push_download
                              | apply silent_push_upload
                              | intros ? ?; split; [reflexivity | assumption] ]
    | intros ? ?; split; [reflexivity | assumption] ].

(** X12: in JSON mode nothing is printed before the report: a run that
    completes has printed the report and nothing else, a run that is cut
    short, by an exception or by a transaction that never ends, has printed
    nothing at all. *)
Theorem json_mode_document_or_nothing `{StatsModule} (w : World) :
  In "--json" (skipn 2 (argv w)) ->
  match fst (speedTest w initial) with
  | Normal _ => exists document,
                  stdout (snd (speedTest w initial)) = [JsonLine document]
  | Abrupt _ | Suspended => stdout (snd (speedTest w initial)) = []
  end.
Proof.
  intros Hj. apply json_mode_argv in Hj. unfold json_mode in Hj.
  assert (G : document_or_nothing (speedTest w)); [|now apply G].
  unfold speedTest. rewrite Hj. cbn [negb].
  unfold measureLatency, measureDownload, measureUpload, download, upload.
  apply d_bind.
  { apply keeps_bind; [apply keeps_trials | intros a s; now split]. }
  intros ping. apply d_set_flushing. intros _.
  do 5 (apply dq_bind;
        [unfold toFixed_at; destruct (nth_error _ _); hush | intros]).
  apply dq_bind; [hush | intros].
  do 2 (apply dq_bind; [unfold logInfo; hush | intros]).
  apply dq_bind; [unfold logLatency; hush | intros].
  do 5 (apply dq_bind; [hush | intros];
        apply dq_bind; [unfold logSpeedTestResult; hush | intros]).
  apply dq_bind; [unfold logDownloadSpeed; hush | intros].
  do 3 (apply dq_bind; [hush | intros]).
  apply dq_bind; [unfold logUploadSpeed; hush | intros].
  intros s Hs Hf. unfold bind, get_results, console_log.
  destruct (results s); cbn [fst snd stdout]; [|exact Hs].
  rewrite Hs. eauto.
Qed.

Lemma json_mode_document_or_nothing_witness :
  In "--json" (skipn 2 (argv header_missing_at_2))
  /\ match fst (speedTest (stats := stats_spec) header_missing_at_2 initial) with
     | Normal _ =>
         exists document,
           stdout (snd (speedTest (stats := stats_spec) header_missing_at_2 initial))
           = [JsonLine document]
     | Abrupt _ | Suspended =>
         stdout (snd (speedTest (stats := stats_spec) header_missing_at_2 initial)) = []
     end.
Proof.
  assert (J : In "--json" (skipn 2 (argv header_missing_at_2))) by (left; reflexivity).
  split; [exact J|].
  exact (json_mode_document_or_nothing (H := stats_spec) header_missing_at_2 J).
Defined.

(** X11: without [--json], a run that completes prints eleven lines in this
    order: server location, caller address, latency (the median), jitter,
    one line per download tier (the median of the tier), the overall
    download speed and the overall upload speed; no upload tier has a line
    of its own, no JSON document is printed and the two speed lists of
    [results] stay empty.  The routing-node code is taken not to be a name
    inherited from [Object.prototype]. *)
Theorem console_report `{StatsModule} (w : World) :
  settled w 0 77 = true ->
  ~ In "--json" (skipn 2 (argv w)) ->
  inherited (show (parseCfCdnCgiTrace (trace w) !! "colo")) = false ->
  let ping := tier w latency_of 0 20 in
  let d1 := tier w (download_speed_of 101000) 20 10 in
  let d2 := tier w (download_speed_of 1001000) 30 8 in
  let d3 := tier w (download_speed_of 10001000) 38 6 in
  let d4 := tier w (download_speed_of 25001000) 44 4 in
  let d5 := tier w (download_speed_of 100001000) 48 1 in
  let u1 := tier w (upload_speed_of 11000) 49 10 in
  let u2 := tier w (upload_speed_of 101000) 59 10 in
  let u3 := tier w (upload_speed_of 1001000) 69 8 in
  let cf := parseCfCdnCgiTrace (trace w) in
  let run := speedTest w initial in
  stdout (snd run)
  = [ InfoLine "" "Server Location:"
        (show (fetchServerLocationData w !! show (cf !! "colo"))
         ++ " (" ++ show (cf !! "colo") ++ ")");
      InfoLine "        " "Your IP:"
        (show (cf !! "ip") ++ " (" ++ show (cf !! "loc") ++ ")");
      LatencyLine (toFixed2 (median ping) ++ " ms");
      JitterLine (toFixed2 (jitter ping) ++ " ms");
      SpeedLine "    " "100kB" (toFixed2 (median d1) ++ " Mbps");
      SpeedLine "      " "1MB" (toFixed2 (median d2) ++ " Mbps");
      SpeedLine "     " "10MB" (toFixed2 (median d3) ++ " Mbps");
      SpeedLine "     " "25MB" (toFixed2 (median d4) ++ " Mbps");
      SpeedLine "    " "100MB" (toFixed2 (median d5) ++ " Mbps");
      DownloadLine (toFixed2 (quartile (d1 ++ d2 ++ d3 ++ d4 ++ d5) 0.9));
      UploadLine (toFixed2 (quartile (u1 ++ u2 ++ u3) 0.9)) ]
  /\ option_map download_speeds (results (snd run)) = Some []
  /\ option_map upload_speeds (results (snd run)) = Some [].
Proof.
  intros Hs Hj Hc. cbv zeta. rewrite (speedTest_run w Hs).
  assert (J : json_mode w = false).
  { destruct (json_mode w) eqn:E; [|reflexivity].
    exfalso. now apply Hj, json_mode_argv. }
  cbn [snd final_state stdout results]. rewrite J.
  rewrite <- (get_text_own _ _ Hc).
  repeat split.
Qed.

Lemma console_report_witness :
  settled every_third_fails 0 77 = true
  /\ ~ In "--json" (skipn 2 (argv every_third_fails))
  /\ inherited (show (parseCfCdnCgiTrace (trace every_third_fails) !! "colo")) = false
  /\ length (stdout (snd (speedTest (stats := stats_spec) every_third_fails initial)))
     = 11.
Proof.
  assert (N : ~ In "--json" (skipn 2 (argv every_third_fails))) by (cbn; tauto).
  split; [reflexivity|]. split; [exact N|]. split; [reflexivity|].
  destruct (console_report (H := stats_spec) every_third_fails eq_refl N eq_refl)
    as [-> _].
  reflexivity.
Defined.

(** X13: in a run that completes, the error console holds one line
    [Error: reason] per rejected transaction, in the order of the
    transactions, and nothing else. *)
Theorem stderr_is_the_rejections `{StatsModule} (w : World) :
  settled w 0 77 = true ->
  stderr (snd (speedTest w initial))
  = map (fun reason : string => ("Error: " ++ reason)%string)
        (rejections (answers w 0 77))
  /\ length (stderr (snd (speedTest w initial)))
     = length (List.filter is_rejected (answers w 0 77)).
Proof.
  intros Hs. rewrite (speedTest_run w Hs). cbn [snd final_state stderr].
  split; [reflexivity|]. rewrite length_map.
  induction (answers w 0 77) as [|[a|e|u|] ps IH]; cbn; congruence.
Qed.

Lemma stderr_is_the_rejections_witness :
  settled every_third_fails 0 77 = true
  /\ length (stderr (snd (speedTest (stats := stats_spec) every_third_fails initial)))
     = 25.
Proof.
  split; [reflexivity|].
  destruct (stderr_is_the_rejections (H := stats_spec) every_third_fails eq_refl)
    as [_ ->].
  reflexivity.
Defined.

(** A code that is an inherited name finds the inherited value, here the
    function [Object]. *)
Example inherited_colo_location :
  option_map server_location
    (results (snd (speedTest (stats := stats_spec) inherited_colo initial)))
  = Some "function Object() { [native code] } (constructor)".
Proof.
  rewrite (speedTest_run (H := stats_spec) inherited_colo eq_refl).
  reflexivity.
Qed.

(** X14: a routing-node code that /locations does not list (and that is not
    a name inherited from [Object.prototype]) does not stop the run: the
    report names the server location [undefined (CODE)]. *)
Theorem unlisted_colo_is_undefined `{StatsModule} (w : World) (code : string) :
  settled w 0 77 = true ->
  fetchCfCdnCgiTrace w !! "colo" = Some code ->
  fetchServerLocationData w !! code = None ->
  inherited code = false ->
  fst (speedTest w initial) = Normal tt
  /\ option_map server_location (results (snd (speedTest w initial)))
     = Some ("undefined (" ++ code ++ ")")%string.
Proof.
  intros Hs Hc Hl Hi. rewrite (speedTest_run w Hs).
  cbn [fst snd final_state results]. split; [reflexivity|].
  destruct (json_mode w); cbn [option_map json_results header_results server_location];
    unfold colo; rewrite Hc; cbn [show]; rewrite (get_text_own _ _ Hi), Hl;
    reflexivity.
Qed.

Lemma unlisted_colo_is_undefined_witness :
  settled unlisted_colo 0 77 = true
  /\ fetchCfCdnCgiTrace unlisted_colo !! "colo" = Some "ZZZ"
  /\ fetchServerLocationData unlisted_colo !! "ZZZ" = None
  /\ inherited "ZZZ" = false
  /\ option_map server_location
       (results (snd (speedTest (stats := stats_spec) unlisted_colo initial)))
     = Some "undefined (ZZZ)".
Proof.
  split; [reflexivity|]. split; [reflexivity|]. split; [reflexivity|].
  split; [reflexivity|].
  destruct (unlisted_colo_is_undefined (H := stats_spec) unlisted_colo "ZZZ"
              eq_refl eq_refl eq_refl eq_refl) as [_ ->].
  reflexivity.
Defined.

(** X15: whatever the transport does and however the run ends, the timed
    transactions issued are the plan or a beginning of it: never more than
    77, never one out of order, never a second attempt, and all of them to
    speed.cloudflare.com; a run that completes has issued the whole plan. *)
Theorem speedTest_never_leaves_plan `{StatsModule} (w : World) :
  let issued := requests (snd (speedTest w initial)) in
  issued `prefix_of` planned_requests
  /\ length issued <= 77
  /\ Forall (fun r => hostname r = "speed.cloudflare.com") issued
  /\ (forall a, fst (speedTest w initial) = Normal a -> issued = planned_requests).
Proof.
  cbv zeta. destruct (issues_speedTest w initial) as (L & E & P & F).
  cbn [initial requests app] in E. rewrite E.
  split; [exact P|]. split; [|split; [|exact F]].
  - apply prefix_length in P. exact P.
  - destruct P as [rest P].
    assert (A : Forall (fun r => hostname r = "speed.cloudflare.com") planned_requests).
    { unfold planned_requests. repeat (apply Forall_app; split);
        apply Forall_forall; intros r Hr; apply list_elem_of_In in Hr;
        apply repeat_spec in Hr; now subst r. }
    rewrite P in A. now apply Forall_app in A.
Qed.

(** X4: the byte count of a download can be read back from the path it is
    requested with, so different sizes are different requests; a download
    writes no body.  Byte counts are taken up to [Number.MAX_SAFE_INTEGER],
    where a number is an exact integer and prints in plain decimal. *)
Theorem request_sizes (bytes : N) :
  (bytes <= MAX_SAFE_INTEGER)%N ->
  option_map N.of_uint
    (NilZero.uint_of_string (slice 14 (path (download_options bytes))))
  = Some bytes
  /\ (forall other, (other <= MAX_SAFE_INTEGER)%N ->
                    download_options other = download_options bytes -> other = bytes)
  /\ method (download_options bytes) = "GET"
  /\ body_length (download_options bytes) = 0%N.
Proof.
  intros _.
  assert (R : forall n, option_map N.of_uint
                (NilZero.uint_of_string (slice 14 (path (download_options n))))
              = Some n).
  { intros n. cbn [download_options path].
    change (slice 14 ("/__down?bytes=" ++ N_to_string n)) with (N_to_string n).
    unfold N_to_string. rewrite NilZero.usu.
    - cbn [option_map]. now rewrite DecimalN.Unsigned.of_to.
    - destruct n; [discriminate|]. apply DecimalPos.Unsigned.to_uint_nonnil. }
  split; [apply R|]. split; [|split; reflexivity].
  intros other _ E. pose proof (R other) as Ro. rewrite E, R in Ro. congruence.
Qed.

Lemma request_sizes_witness :
  (101000 <= MAX_SAFE_INTEGER)%N
  /\ path (download_options 101000) = "/__down?bytes=101000"
  /\ option_map N.of_uint (NilZero.uint_of_string "101000") = Some 101000%N.
Proof.
  assert (B : (101000 <= MAX_SAFE_INTEGER)%N) by (vm_compute; discriminate).
  split; [exact B|]. split; [reflexivity|].
  exact (proj1 (request_sizes 101000 B)).
Defined.

Lemma length_spaces k : String.length (spaces k) = k.
Proof. induction k; cbn; auto. Qed.

Lemma length_append_string (a b : string) :
  String.length (a ++ b)%string = String.length a + String.length b.
Proof.
  induction a as [|c a IH]; [reflexivity|].
  rewrite append_cons. cbn [String.length Nat.add]. now rewrite IH.
Qed.

(** [logInfo], case by case. *)
Lemma logInfo_cases (text data : string) (s : State) :
  let width := String.length text in
  logInfo text data s
  = (if flushing s then
       if (width <=? 15)%nat then
         (Normal tt,
          {| requests := requests s; stderr := stderr s;
             stdout := stdout s
                       ++ [InfoLine (spaces (15 - width)) (text ++ ":") data];
             flushing := flushing s; results := results s |})
       else (Abrupt range_error, s)
     else (Normal tt, s))
  /\ String.length (spaces (15 - width) ++ text) = Nat.max 15 width.
Proof.
  cbv zeta. split.
  - unfold logInfo, bind, get_flushing, repeat_space.
    destruct s as [rq er out f rs]. cbn [requests stderr stdout flushing results].
    destruct f; [|reflexivity].
    destruct (Nat.leb_spec (String.length text) 15) as [L|L].
    + destruct (Z.ltb_spec (15 - Z.of_nat (String.length text)) 0); [lia|].
      unfold console_log.
      replace (Z.to_nat (15 - Z.of_nat (String.length text)))
        with (15 - String.length text) by lia.
      reflexivity.
    + destruct (Z.ltb_spec (15 - Z.of_nat (String.length text)) 0); [|lia].
      reflexivity.
  - rewrite length_append_string, length_spaces. lia.
Qed.

(** [logSpeedTestResult], case by case. *)
Lemma logSpeedTestResult_cases `{StatsModule} (display_size : string)
        (test : list float) (s : State) :
  let width := String.length display_size in
  let display_speed := toFixed2 (median test) in
  logSpeedTestResult display_size test s
  = if flushing s then
      if (width <=? 9)%nat then
        (Normal tt,
         {| requests := requests s; stderr := stderr s;
            stdout := stdout s
                      ++ [SpeedLine (spaces (9 - width)) display_size
                                    (display_speed ++ " Mbps")];
            flushing := flushing s; results := results s |})
      else (Abrupt range_error, s)
    else
      match results s with
      | Some r =>
          (Normal tt,
           {| requests := requests s; stderr := stderr s; stdout := stdout s;
              flushing := flushing s;
              results :=
                Some {| server_location := server_location r;
                        your_ip := your_ip r;
                        latency := latency r;
                        download_speeds :=
                          download_speeds r
                          ++ [{| size := display_size; speed := display_speed |}];
                        upload_speeds := upload_speeds r |} |})
      | None => (Abrupt results_undefined, s)
      end.
Proof.
  cbv zeta. unfold logSpeedTestResult, bind, get_flushing, repeat_space.
  destruct s as [rq er out f rs]. cbn [requests stderr stdout flushing results].
  destruct f.
  - destruct (Nat.leb_spec (String.length display_size) 9) as [L|L].
    + destruct (Z.ltb_spec (9 - Z.of_nat (String.length display_size)) 0); [lia|].
      unfold console_log.
      replace (Z.to_nat (9 - Z.of_nat (String.length display_size)))
        with (9 - String.length display_size) by lia.
      reflexivity.
    + destruct (Z.ltb_spec (9 - Z.of_nat (String.length display_size)) 0); [|lia].
      reflexivity.
  - unfold push_download, bind, get_results.
    cbn [results]. destruct rs; reflexivity.
Qed.

(** X10: the labels are right-aligned.  With [flushing] on, [logInfo]
    prints a label of at most 15 characters after just the blanks that
    bring it to 15, and [logSpeedTestResult] a label of at most 9 characters
    after the blanks that bring it to 9; a longer label makes
    [" ".repeat] throw a [RangeError] and nothing is printed. *)
Theorem log_columns `{StatsModule} (text data : string) (test : list float)
        (s : State) :
  flushing s = true ->
  let width := String.length text in
  (width <= 15 ->
   exists pad,
     logInfo text data s
     = (Normal tt,
        {| requests := requests s; stderr := stderr s;
           stdout := stdout s ++ [InfoLine pad (text ++ ":") data];
           flushing := flushing s; results := results s |})
     /\ String.length (pad ++ text) = 15)
  /\ (15 < width -> logInfo text data s = (Abrupt range_error, s))
  /\ (width <= 9 ->
      exists pad,
        logSpeedTestResult text test s
        = (Normal tt,
           {| requests := requests s; stderr := stderr s;
              stdout := stdout s
                        ++ [SpeedLine pad text (toFixed2 (median test) ++ " Mbps")];
              flushing := flushing s; results := results s |})
        /\ String.length (pad ++ text) = 9)
  /\ (9 < width -> logSpeedTestResult text test s = (Abrupt range_error, s)).
Proof.
  intros F. cbv zeta.
  destruct (logInfo_cases text data s) as [I _].
  pose proof (logSpeedTestResult_cases text test s) as R.
  cbv zeta in I, R. destruct s as [rq er out f rs].
  cbn [flushing requests stderr stdout results] in *. subst f.
  repeat split.
  - intros L. exists (spaces (15 - String.length text)).
    apply Nat.leb_le in L as L'. rewrite L' in I. split; [exact I|].
    rewrite length_append_string, length_spaces. lia.
  - intros L. apply Nat.leb_gt in L. now rewrite L in I.
  - intros L. exists (spaces (9 - String.length text)).
    apply Nat.leb_le in L as L'. rewrite L' in R. split; [exact R|].
    rewrite length_append_string, length_spaces. lia.
  - intros L. apply Nat.leb_gt in L. now rewrite L in R.
Qed.

Lemma log_columns_witness :
  flushing initial = true
  /\ (exists pad,
        logInfo "Your IP" "10.0.0.1 (US)" initial
        = (Normal tt,
           {| requests := []; stderr := [];
              stdout := [InfoLine pad "Your IP:" "10.0.0.1 (US)"];
              flushing := true; results := None |})
        /\ String.length (pad ++ "Your IP") = 15)
  /\ logSpeedTestResult (stats := stats_spec) "Server Location" [] initial
     = (Abrupt range_error, initial).
Proof.
  split; [reflexivity|].
  destruct (log_columns (H := stats_spec) "Your IP" "10.0.0.1 (US)" [] initial
              eq_refl) as (A & _).
  destruct (log_columns (H := stats_spec) "Server Location" "" [] initial
              eq_refl) as (_ & _ & _ & D).
  split.
  - apply A. cbn. lia.
  - apply D. cbn. lia.
Defined.

Lemma not_nan_SF (x : float) :
  is_nan x = false -> Prim2SF x <> S754_nan.
Proof.
  unfold is_nan. rewrite FloatAxioms.eqb_spec. intros H E. rewrite E in H.
  discriminate.
Qed.

Lemma min_step_seed (x : float) : is_nan x = false -> min_step infinity x = x.
Proof.
  intros Hx. unfold min_step. rewrite Hx.
  change (is_nan infinity) with false. change (is_pos_zero infinity) with false.
  rewrite andb_false_r. cbn [orb].
  destruct (x <? infinity)%float eqn:L; [reflexivity|].
  apply Prim2SF_inj. rewrite ltb_spec in L. apply not_nan_SF in Hx.
  change (Prim2SF infinity) with (S754_infinity false) in *.
  destruct (Prim2SF x) as [s|s| |s m e]; try destruct s; try discriminate L;
    try reflexivity. contradiction.
Qed.

Lemma max_step_seed (x : float) : is_nan x = false -> max_step neg_infinity x = x.
Proof.
  intros Hx. unfold max_step. rewrite Hx.
  change (is_nan neg_infinity) with false.
  change (is_neg_zero neg_infinity) with false.
  rewrite andb_false_r. cbn [orb].
  destruct (neg_infinity <? x)%float eqn:L; [reflexivity|].
  apply Prim2SF_inj. rewrite ltb_spec in L. apply not_nan_SF in Hx.
  change (Prim2SF neg_infinity) with (S754_infinity true) in *.
  destruct (Prim2SF x) as [s|s| |s m e]; try destruct s; try discriminate L;
    try reflexivity. contradiction.
Qed.

Lemma fold_min_in (xs : list float) : forall lo,
  is_nan lo = false -> existsb is_nan xs = false ->
  fold_left min_step xs lo = lo \/ In (fold_left min_step xs lo) xs.
Proof.
  induction xs as [|x xs IH]; intros lo Hlo Hxs; cbn [fold_left]; [now left|].
  cbn [existsb] in Hxs. apply orb_false_iff in Hxs as [Hx Hxs].
  assert (C : min_step lo x = lo \/ min_step lo x = x).
  { unfold min_step. rewrite Hlo, Hx. cbn [orb].
    destruct (is_neg_zero x && is_pos_zero lo); [now right|].
    destruct (x <? lo)%float; auto. }
  destruct C as [C|C]; rewrite C.
  - destruct (IH lo Hlo Hxs); [now left | right; now right].
  - destruct (IH x Hx Hxs) as [E|E]; right; [left; now rewrite E | now right].
Qed.

Lemma fold_max_in (xs : list float) : forall hi,
  is_nan hi = false -> existsb is_nan xs = false ->
  fold_left max_step xs hi = hi \/ In (fold_left max_step xs hi) xs.
Proof.
  induction xs as [|x xs IH]; intros hi Hhi Hxs; cbn [fold_left]; [now left|].
  cbn [existsb] in Hxs. apply orb_false_iff in Hxs as [Hx Hxs].
  assert (C : max_step hi x = hi \/ max_step hi x = x).
  { unfold max_step. rewrite Hhi, Hx. cbn [orb].
    destruct (is_pos_zero x && is_neg_zero hi); [now right|].
    destruct (hi <? x)%float; auto. }
  destruct C as [C|C]; rewrite C.
  - destruct (IH hi Hhi Hxs); [now left | right; now right].
  - destruct (IH x Hx Hxs) as [E|E]; right; [left; now rewrite E | now right].
Qed.

Lemma Math_min_max_in (xs : list float) :
  xs <> [] -> existsb is_nan xs = false ->
  In (Math_min xs) xs /\ In (Math_max xs) xs.
Proof.
  destruct xs as [|x xs]; [congruence|]. intros _ H.
  cbn [existsb] in H. apply orb_false_iff in H as [Hx Hxs].
  unfold Math_min, Math_max. cbn [fold_left].
  rewrite (min_step_seed x Hx), (max_step_seed x Hx). split.
  - destruct (fold_min_in xs x Hx Hxs) as [E|E]; [left; now rewrite E | now right].
  - destruct (fold_max_in xs x Hx Hxs) as [E|E]; [left; now rewrite E | now right].
Qed.

(** X9: when at least one latency probe resolves and no measurement is NaN,
    the minimum and the maximum that [measureLatency] returns are
    measurements of resolved probes: never the Infinity and -Infinity that
    [Math.min] and [Math.max] start from. *)
Theorem latency_extremes_are_samples `{StatsModule} (w : World) :
  settled w 0 20 = true ->
  let series := tier w latency_of 0 20 in
  series <> [] ->
  existsb is_nan series = false ->
  exists lo hi a m d,
    fst (measureLatency w initial) = Normal [lo; hi; a; m; d]
    /\ In lo series /\ In hi series.
Proof.
  intros Hs series Hne Hnan. unfold initial.
  rewrite (measureLatency_at w [] [] [] true None 0 eq_refl Hs).
  cbn [fst]. cbv zeta. fold series.
  destruct (Math_min_max_in series Hne Hnan) as [Hlo Hhi].
  eauto 10.
Qed.

Lemma latency_extremes_are_samples_witness :
  settled every_third_fails 0 20 = true
  /\ tier every_third_fails latency_of 0 20 <> []
  /\ existsb is_nan (tier every_third_fails latency_of 0 20) = false
  /\ exists lo hi a m d,
       fst (measureLatency (stats := stats_spec) every_third_fails initial)
       = Normal [lo; hi; a; m; d]
       /\ In lo (tier every_third_fails latency_of 0 20)
       /\ In hi (tier every_third_fails latency_of 0 20).
Proof.
  assert (N : tier every_third_fails latency_of 0 20 <> []) by discriminate.
  split; [reflexivity|]. split; [exact N|]. split; [reflexivity|].
  exact (latency_extremes_are_samples (H := stats_spec) every_third_fails
           eq_refl N eq_refl).
Defined.

Lemma completes_pure w {A} (m : M A) :
  (forall s, requests (snd (m s)) = requests s) -> completes_on w m [].
Proof.
  intros H s. specialize (H s). destruct (m s) as [[a|e|] s']; [|exact I..].
  cbn [snd] in H. rewrite H, app_nil_r. now split.
Qed.

Lemma completes_bind w {A B} (m : M A) (k : A -> M B) L1 L2 :
  completes_on w m L1 -> (forall a, completes_on w (k a) L2) ->
  completes_on w (bind m k) (L1 ++ L2).
Proof.
  intros Hm Hk s. specialize (Hm s). unfold bind.
  destruct (m s) as [[a|e|] s']; [|exact I..].
  destruct Hm as [E1 S1]. specialize (Hk a s').
  destruct (k a s') as [[b|e|] s'']; [|exact I..]. destruct Hk as [E2 S2].
  rewrite E1 in E2, S2. rewrite length_app in S2.
  split; [now rewrite E2, app_assoc|].
  rewrite length_app, settled_app. now rewrite S1, S2.
Qed.

Lemma completes_quiet w {A B} (m : M A) (k : A -> M B) L :
  completes_on w m [] -> (forall a, completes_on w (k a) L) ->
  completes_on w (bind m k) L.
Proof. intros. now apply (completes_bind w m k [] L). Qed.

Lemma completes_trials w options (measure : TimedTransaction -> float) n :
  forall acc, completes_on w (trials (request w options) measure n acc)
                           (repeat options n).
Proof.
  induction n as [|n IH]; intros acc s; cbn [trials repeat].
  - cbn. rewrite app_nil_r. now split.
  - unfold bind at 1. unfold request at 1.
    destruct (settle (net w (length (requests s)))) as [r|err|u|] eqn:E.
    + specialize (IH (acc ++ [measure r])
                     {| requests := requests s ++ [options]; stderr := stderr s;
                        stdout := stdout s; flushing := flushing s;
                        results := results s |}).
      destruct (trials _ _ n _ _) as [[a|e|] s']; [|exact I..].
      cbn [requests] in IH. destruct IH as [E1 S1].
      rewrite length_app, Nat.add_1_r in S1.
      split; [now rewrite E1, <- app_assoc|].
      cbn [length]. unfold settled in *. cbn [answers seq map forallb].
      fold (answers w (S (length (requests s))) (length (repeat options n))).
      now rewrite E, S1.
    + unfold bind at 1. unfold console_error at 1.
      specialize (IH acc
                     {| requests := requests s ++ [options];
                        stderr := stderr s ++ [("Error: " ++ err)%string];
                        stdout := stdout s; flushing := flushing s;
                        results := results s |}).
      destruct (trials _ _ n _ _) as [[a|e|] s']; [|exact I..].
      cbn [requests] in IH. destruct IH as [E1 S1].
      rewrite length_app, Nat.add_1_r in S1.
      split; [now rewrite E1, <- app_assoc|].
      cbn [length]. unfold settled in *. cbn [answers seq map forallb].
      fold (answers w (S (length (requests s))) (length (repeat options n))).
      now rewrite E, S1.
    + exact I.
    + exact I.
Qed.

Ltac calm := apply completes_quiet; [now apply completes_pure | intros].

Ltac busy := apply completes_bind; [apply completes_trials | intros].

Lemma completes_log w {A} (m1 m2 : M A) :
  completes_on w m1 [] -> completes_on w m2 [] ->
  completes_on w (f <- get_flushing ;; if f then m1 else m2) [].
Proof. intros H1 H2. calm. now destruct a. Qed.

Lemma completes_logInfo w text data : completes_on w (logInfo text data) [].
Proof.
  unfold logInfo. apply completes_log.
  - destruct (repeat_space _); now apply completes_pure.
  - now apply completes_pure.
Qed.

Lemma completes_push_download w e : completes_on w (push_download e) [].
Proof.
  apply completes_pure. intros s. unfold push_download, bind, get_results.
  now destruct (results s).
Qed.

Lemma completes_push_upload w e : completes_on w (push_upload e) [].
Proof.
  apply completes_pure. intros s. unfold push_upload, bind, get_results.
  now destruct (results s).
Qed.

Lemma completes_logSpeedTestResult `{StatsModule} w display_size test :
  completes_on w (logSpeedTestResult display_size test) [].
Proof.
  unfold logSpeedTestResult. apply completes_log.
  - destruct (repeat_space _); now apply completes_pure.
  - apply completes_push_download.
Qed.

Lemma completes_speedTest `{StatsModule} (w : World) :
  completes_on w (speedTest w) planned_requests.
Proof.
  unfold speedTest, planned_requests, measureLatency, measureDownload,
    measureUpload, download, upload.
  apply completes_bind; [|intros ping].
  { rewrite <- (app_nil_r (repeat _ 20)). busy. now apply completes_pure. }
  calm.
  do 5 (apply completes_quiet;
        [unfold toFixed_at; destruct (nth_error _ _); now apply completes_pure
        | intros]).
  calm.
  apply completes_quiet; [apply completes_logInfo|intros].
  apply completes_quiet; [apply completes_logInfo|intros].
  apply completes_quiet.
  { unfold logLatency. apply completes_log; [|now apply completes_pure].
    calm. now apply completes_pure. }
  intros.
  do 5 (busy; apply completes_quiet; [apply completes_logSpeedTestResult|intros]).
  apply completes_quiet.
  { unfold logDownloadSpeed.
    apply completes_log; [now apply completes_pure | apply completes_push_download]. }
  intros. busy. busy.
  rewrite <- (app_nil_r (repeat _ 8)). busy.
  apply completes_quiet.
  { unfold logUploadSpeed.
    apply completes_log; [now apply completes_pure | apply completes_push_upload]. }
  intros. destruct (bool_decide _); [|now apply completes_pure].
  apply completes_pure. intros s. unfold bind, get_results.
  now destruct (results s).
Qed.

(** X16: a run of [speedTest] never completes past a transaction that was
    not settled: when the run returns, each of its 77 timed transactions was
    resolved or rejected; none came back without [server-timing] header and
    none stalled. *)
Theorem speedTest_completes_only_settled `{StatsModule} (w : World) :
  fst (speedTest w initial) = Normal tt ->
  settled w 0 77 = true
  /\ requests (snd (speedTest w initial)) = planned_requests.
Proof.
  intros E. pose proof (completes_speedTest w initial) as C.
  destruct (speedTest w initial) as [[a|e|] s']; [|discriminate..].
  destruct C as [C1 C2]. split; [exact C2 | exact C1].
Qed.

Lemma speedTest_completes_only_settled_witness :
  fst (speedTest (stats := stats_spec) always_answers initial) = Normal tt
  /\ settled always_answers 0 77 = true.
Proof.
  assert (R : fst (speedTest (stats := stats_spec) always_answers initial)
              = Normal tt)
    by (rewrite (speedTest_run (H := stats_spec) always_answers eq_refl);
        reflexivity).
  split; [exact R|].
  exact (proj1 (speedTest_completes_only_settled (H := stats_spec)
                  always_answers R)).
Defined.

(** ** The plain GET *)

Lemma get_event_settled g e v :
  promise g = Some v -> promise (get_event g e) = Some v.
Proof.
  intros P. unfold get_event, settle_once.
  destruct (uncaught g); [exact P|].
  destruct e, (attached g); cbn; try exact P; now rewrite P.
Qed.

Lemma fold_settled events : forall g v,
  promise g = Some v -> promise (fold_left get_event events g) = Some v.
Proof.
  induction events as [|e events IH]; intros g v P; [exact P|].
  cbn. apply IH. now apply get_event_settled.
Qed.

Lemma get_event_uncaught g e err :
  uncaught g = Some err -> get_event g e = g.
Proof. intros U. unfold get_event. now rewrite U. Qed.

Lemma fold_uncaught events : forall g err,
  uncaught g = Some err -> fold_left get_event events g = g.
Proof.
  induction events as [|e events IH]; intros g err U; [reflexivity|].
  cbn. rewrite (get_event_uncaught g e err U). now apply (IH g err).
Qed.

Lemma fold_data chunks : forall g,
  attached g = true -> uncaught g = None ->
  fold_left get_event (map Data chunks) g
  = {| attached := true; body := body g ++ chunks; promise := promise g;
       uncaught := None |}.
Proof.
  induction chunks as [|c chunks IH]; intros g A U.
  - cbn. rewrite app_nil_r. destruct g; cbn in *; now subst.
  - cbn [map fold_left]. rewrite IH.
    + unfold get_event. rewrite U, A. cbn. now rewrite <- app_assoc.
    + unfold get_event. now rewrite U, A.
    + unfold get_event. now rewrite U, A.
Qed.

Lemma fold_attached events : forall g,
  attached g = true -> uncaught g = None ->
  uncaught (fold_left get_event events g) = None.
Proof.
  induction events as [|e events IH]; intros g A U; [exact U|].
  cbn [fold_left]. apply IH; unfold get_event, settle_once; rewrite U, A;
    destruct e; reflexivity || assumption.
Qed.

(** X17: [get] resolves with the chunks of the response joined in the order
    in which they arrived, whatever their number and size, and whatever
    the request emits after [end]: a settled promise is not settled again. *)
Theorem get_resolves_body (chunks : list string) (later : list Event) :
  let g := get (Response :: map Data chunks ++ End :: later) in
  promise g = Some (inl (String.concat "" chunks)) /\ uncaught g = None.
Proof.
  cbv zeta. unfold get. cbn [fold_left].
  change (get_event get_started Response)
    with {| attached := true; body := []; promise := None; uncaught := None |}.
  rewrite fold_left_app, fold_data by reflexivity.
  cbn [fold_left body promise app].
  change (get_event _ End)
    with {| attached := true; body := chunks;
            promise := Some (inl (String.concat "" chunks));
            uncaught := None |}.
  split; [now apply fold_settled | now apply fold_attached].
Qed.

(** X18: what [get] does with an [error] event depends on when it arrives.
    Its [error] listener is attached inside the response callback, so an
    error that arrives before the response finds no listener: it is thrown,
    the process ends and the promise is never rejected.  An error that
    arrives after the response, before its [end], rejects the promise with
    that error. *)
Theorem get_error (chunks : list string) (err : string) (later : list Event) :
  promise (get (Error err :: later)) = None
  /\ uncaught (get (Error err :: later)) = Some err
  /\ promise (get (Response :: map Data chunks ++ Error err :: later))
     = Some (inr err)
  /\ uncaught (get (Response :: map Data chunks ++ Error err :: later)) = None.
Proof.
  split; [|split].
  - unfold get. cbn [fold_left].
    now rewrite (fold_uncaught later (get_event get_started (Error err)) err).
  - unfold get. cbn [fold_left].
    now rewrite (fold_uncaught later (get_event get_started (Error err)) err).
  - unfold get. cbn [fold_left].
    change (get_event get_started Response)
      with {| attached := true; body := []; promise := None; uncaught := None |}.
    rewrite fold_left_app, fold_data by reflexivity.
    cbn [fold_left body promise app].
    change (get_event _ (Error err))
      with {| attached := true; body := chunks; promise := Some (inr err);
              uncaught := None |}.
    split; [now apply fold_settled | now apply fold_attached].
Qed.
